(** * The product catalog: a shallow embedding of [product_catalog.py]

    The durable state is the SQLite table [products]; every method of
    [ProductCatalog] opens a connection, runs its statements and commits, so
    a method is a function from the table to a result and a new table.  The
    clock ([datetime.now]) is an argument of the methods that read it, and
    the file that [export_csv] writes is an entry of a map from paths to
    texts.

    The methods are given twice.  Section [Catalog] has what their SQL
    statements compute on a table: integers are the integers of arithmetic
    and the upper-casing is that of the letters a-z.  Module
    [ProductCatalog] has the methods as Python and SQLite run them, with
    what the machine adds: [str.upper()] is Unicode's; an [int] is bound as
    a 64-bit INTEGER or not at all (OverflowError); SQLite has no NaN, so a
    NaN price fails NOT NULL and a NaN cost is stored as NULL, which a row
    here shows as a NaN cost; a sum of two INTEGERs that leaves 64 bits is
    computed as REAL; [LIKE] reads its operands as UTF-8 up to the first
    zero byte and refuses a pattern of more than 50000 bytes; AUTOINCREMENT
    stops at the largest 64-bit id.  Within those limits the two agree
    (lemmas [add_product_within], [update_inventory_within],
    [list_products_within], [search_within]).

    Text is a [string] of bytes, the UTF-8 encoding that SQLite stores; a
    [str] that has none (one with a lone surrogate) cannot be bound and is
    not a text here.
    Prices and costs are SQLite REAL / Python [float] values, IEEE binary64:
    the statements of section [Catalog] take their arithmetic and printing
    from an interface ([FloatOps]), and [Binary64] gives it on Rocq's
    primitive floats.  Memory, disk space and SQLite's bound of 10^9 bytes
    on a text are not modelled.  The order in which ORDER BY leaves rows
    that compare equal is not fixed by SQL; the statements below use that
    the result is sorted and is a permutation of the selected rows, nothing
    more.  [SUM] adds in table order, every addition rounded, as SQLite does
    up to version 3.43. *)

From Stdlib Require Import ZArith Ascii String List Bool Lia.
From Stdlib Require Import Floats.
From stdpp Require Import gmap strings list sorting pretty.

#[local] Set Warnings "-inexact-float".
Local Open Scope Z_scope.

(** ** Text *)

Module Text.

Definition is_lower (c : ascii) : bool :=
  let n := N_of_ascii c in ((97 <=? n) && (n <=? 122))%N.

Definition is_upper (c : ascii) : bool :=
  let n := N_of_ascii c in ((65 <=? n) && (n <=? 90))%N.

Definition to_upper (c : ascii) : ascii :=
  if is_lower c then ascii_of_N (N_of_ascii c - 32) else c.

(** [sqlite3Tolower]: only A-Z are folded. *)
Definition to_lower (c : ascii) : ascii :=
  if is_upper c then ascii_of_N (N_of_ascii c + 32) else c.

Fixpoint map_chars (f : ascii -> ascii) (s : string) : string :=
  match s with
  | EmptyString => EmptyString
  | String c s' => String (f c) (map_chars f s')
  end.

(** The letters a-z in upper case: what [str.upper()] does to ASCII
    text. *)
Definition upper : string -> string := map_chars to_upper.

Definition fold_case : string -> string := map_chars to_lower.

Definition is_empty (s : string) : bool :=
  match s with EmptyString => true | String _ _ => false end.

Definition percent : ascii := "%"%char.
Definition underscore : ascii := "_"%char.
Definition nul : ascii := ascii_of_nat 0.

Definition is_nul (c : ascii) : bool := Ascii.eqb c nul.


Definition is_ascii (c : ascii) : bool := (N_of_ascii c <? 128)%N.

Definition is_digit (c : ascii) : bool :=
  let n := N_of_ascii c in ((48 <=? n) && (n <=? 57))%N.

Fixpoint has_char (p : ascii -> bool) (s : string) : bool :=
  match s with
  | EmptyString => false
  | String c s' => p c || has_char p s'
  end.

Fixpoint all_chars (p : ascii -> bool) (s : string) : bool :=
  match s with
  | EmptyString => true
  | String c s' => p c && all_chars p s'
  end.

(** A text as C reads it: up to the first zero byte. *)
Fixpoint c_str (s : string) : string :=
  match s with
  | EmptyString => EmptyString
  | String c s' => if is_nul c then EmptyString else String c (c_str s')
  end.

(** The first byte of a UTF-8 character of several bytes, and the bytes
    that continue one. *)
Definition is_lead (c : ascii) : bool := (192 <=? N_of_ascii c)%N.

Definition is_continuation (c : ascii) : bool :=
  let n := N_of_ascii c in ((128 <=? n) && (n <? 192))%N.

Definition char1 (c : ascii) : string := String c EmptyString.

(** [sqlite3Utf8Read], over and over: a byte from 0xC0 on takes the
    continuation bytes that follow it, any other byte is a character by
    itself.  [open] is the character being read.  On the UTF-8 that Python
    encodes these are the characters of the [str]. *)
Fixpoint split_chars (open : option string) (s : string) : list string :=
  match s with
  | EmptyString => match open with Some g => [g] | None => [] end
  | String b s' =>
      match open with
      | Some g =>
          if is_continuation b then split_chars (Some (g +:+ char1 b)) s'
          else g :: (if is_lead b then split_chars (Some (char1 b)) s'
                     else char1 b :: split_chars None s')
      | None =>
          if is_lead b then split_chars (Some (char1 b)) s'
          else char1 b :: split_chars None s'
      end
  end.

Definition utf8_chars (s : string) : list string := split_chars None s.

Definition is_percent (g : string) : bool := String.eqb g (char1 percent).

Definition is_underscore (g : string) : bool :=
  String.eqb g (char1 underscore).

(** [patternCompare] with no ESCAPE: [%] matches any run of characters,
    [_] matches one character, every other character matches itself up to
    the case of ASCII letters (a character of several bytes has no letter
    A-Z among them, so folding the bytes folds exactly the ASCII
    characters). *)
Fixpoint like_chars (pat s : list string) : bool :=
  match pat with
  | [] => match s with [] => true | _ :: _ => false end
  | p :: pat' =>
      if is_percent p then
        (fix skip (t : list string) : bool :=
           like_chars pat' t ||
           match t with
           | [] => false
           | _ :: t' => skip t'
           end) s
      else
        match s with
        | [] => false
        | c :: s' =>
            (is_underscore p || String.eqb (fold_case p) (fold_case c))
            && like_chars pat' s'
        end
  end.

(** SQLite's [s LIKE pat] on two TEXT values: both are read as C strings. *)
Definition like (pat s : string) : bool :=
  like_chars (utf8_chars (c_str pat)) (utf8_chars (c_str s)).

(** [f"%{query}%"] *)
Definition contains_pattern (query : string) : string :=
  String percent (query +:+ String percent EmptyString).

(** The characters of [needle] occur one after the other in [hay], the
    case of ASCII letters ignored. *)
Definition ci_substring (needle hay : string) : Prop :=
  exists l r,
    map fold_case (utf8_chars hay)
    = l ++ map fold_case (utf8_chars needle) ++ r.

Fixpoint starts_with (p s : list string) : bool :=
  match p, s with
  | [], _ => true
  | a :: p', b :: s' => String.eqb a b && starts_with p' s'
  | _ :: _, [] => false
  end.

(** [needle in hay], on lists of characters *)
Fixpoint occurs (needle hay : list string) : bool :=
  starts_with needle hay
  || match hay with
     | [] => false
     | _ :: hay' => occurs needle hay'
     end.


End Text.

(** [str.upper()] maps every cased letter of Unicode, some to several
    characters.  The development uses three facts about it, each checked
    over all code points of Python 3.11: it changes nothing when applied
    again; it leaves none of the letters a-z; on ASCII text it is
    [Text.upper]. *)
Class Unicode : Type := {
  str_upper : string -> string;
  str_upper_idempotent : forall s, str_upper (str_upper s) = str_upper s;
  str_upper_no_lower : forall s, Text.upper (str_upper s) = str_upper s;
  str_upper_ascii :
    forall s, Text.all_chars Text.is_ascii s = true ->
              str_upper s = Text.upper s
}.

(** ** Floating-point interface

    What the code asks of a price or a cost: Python's [float] arithmetic and
    comparison, [round(x, n)], the format [f"{x:.Nf}"], truthiness, and on the
    SQLite side REAL times INTEGER and the aggregate [SUM]. *)

Class FloatOps (real : Type) := {
  of_int : Z -> real;                  (* float(n); SQLite's integer-to-REAL *)
  fsub : real -> real -> real;
  fmul : real -> real -> real;
  fdiv : real -> real -> real;
  fle : real -> real -> bool;
  truthy : real -> bool;               (* bool(x) *)
  is_nan : real -> bool;               (* math.isnan(x); NULL in SQLite *)
  py_round : real -> Z -> real;        (* round(x, ndigits) *)
  format_f : nat -> real -> string;    (* format(x, ".Nf") *)
  sql_sum : list real -> real          (* SUM over at least one REAL *)
}.

(** A Python number that is either an [int] or a [float]. *)
Inductive number (real : Type) : Type :=
  | Int (z : Z)
  | Float (x : real).
Arguments Int {real} z.
Arguments Float {real} x.

(** ** Data model *)

Inductive status : Set := OUT_OF_STOCK | LOW_STOCK | IN_STOCK.

Definition status_name (s : status) : string :=
  match s with
  | OUT_OF_STOCK => "OUT_OF_STOCK"
  | LOW_STOCK => "LOW_STOCK"
  | IN_STOCK => "IN_STOCK"
  end.

Section DataModel.
Context {real : Type}.

(** The dataclass [Product]. *)
Record Product : Type := mkProduct {
  sku : string;
  name : string;
  category : string;
  price : real;
  cost : real;
  inventory : Z;
  unit_ : string;
  description : string;
  active : bool;
  id_ : option Z;
  created_at : string;
  updated_at : string
}.

(** One row of the table [products]. *)
Record Row : Type := mkRow {
  col_id : Z;
  col_sku : string;
  col_name : string;
  col_category : string;
  col_price : real;
  col_cost : real;
  col_inventory : Z;
  col_unit : string;
  col_description : string;
  col_active : bool;
  col_created_at : string;
  col_updated_at : string
}.

(** The table in rowid order and the AUTOINCREMENT counter kept in
    [sqlite_sequence]. *)
Record Database : Type := mkDatabase {
  products : list Row;
  autoinc : Z
}.

Definition empty_db : Database := mkDatabase [] 0.

Definition _row_to_product (row : Row) : Product :=
  {| id_ := Some (col_id row); sku := col_sku row; name := col_name row;
     category := col_category row; price := col_price row;
     cost := col_cost row; inventory := col_inventory row;
     unit_ := col_unit row; description := col_description row;
     active := col_active row; created_at := col_created_at row;
     updated_at := col_updated_at row |}.

Definition inventory_status (p : Product) : status :=
  if inventory p <=? 0 then OUT_OF_STOCK
  else if inventory p <? 10 then LOW_STOCK
  else IN_STOCK.

Context `{FloatOps real}.

Definition margin_pct (p : Product) : real :=
  if fle (price p) (of_int 0) then of_int 0
  else py_round
         (fmul (fdiv (fsub (price p) (cost p)) (price p)) (of_int 100)) 2.

End DataModel.
Arguments Product : clear implicits.
Arguments Row : clear implicits.
Arguments Database : clear implicits.

(** ** SQL over the table *)

Inductive error : Set :=
  | IntegrityError (message : string)
  | OverflowError (message : string)
  | OperationalError (message : string)
  | TypeError (message : string).

(** The spec's name for the failure of the UNIQUE constraint on [sku]. *)
Definition DuplicateSkuError : error :=
  IntegrityError "UNIQUE constraint failed: products.sku".

Inductive result (A : Type) : Type :=
  | Ok (value : A)
  | Raise (e : error).
Arguments Ok {A} value.
Arguments Raise {A} e.

Section Catalog.
Context {real : Type}.

Local Abbreviation Row := (Row real).
Local Abbreviation Product := (Product real).
Local Abbreviation Database := (Database real).

(** [ORDER BY name] and [ORDER BY category, name], BINARY collation. *)
Definition by_name (r1 r2 : Row) : Prop :=
  String.le (col_name r1) (col_name r2).

Definition by_category_name (r1 r2 : Row) : Prop :=
  strict String.le (col_category r1) (col_category r2)
  \/ (col_category r1 = col_category r2
      /\ String.le (col_name r1) (col_name r2)).

#[export] Instance by_name_dec : RelDecision by_name.
Proof. intros r1 r2. unfold by_name. apply _. Defined.

#[export] Instance by_category_name_dec : RelDecision by_category_name.
Proof. intros r1 r2. unfold by_category_name, strict. apply _. Defined.

Definition sql_where (cond : Row -> bool) (t : list Row) : list Row :=
  List.filter cond t.

(** A negative LIMIT is no limit. *)
Definition sql_limit (n : Z) (t : list Row) : list Row :=
  if n <? 0 then t else firstn (Z.to_nat n) t.

Definition has_sku (key : string) (r : Row) : bool :=
  String.eqb (col_sku r) key.

Definition max_rowid (t : list Row) : Z :=
  fold_right (fun r m => Z.max (col_id r) m) 0 t.

(** ** What the statements of [ProductCatalog] compute

    The methods on values within the limits of the machine: integers are
    not bounded, skus are ASCII, every price and cost is a number. *)

(** [created] and [updated] are the two readings of [datetime.now()] taken
    by the dataclass defaults. *)
Definition add_product (created updated : string)
    (sku0 name0 category0 : string) (price0 cost0 : real) (inventory0 : Z)
    (unit0 description0 : string) (d : Database)
  : Database * result Product :=
  let p := mkProduct (Text.upper sku0) name0 category0 price0 cost0
             inventory0 unit0 description0 true None created updated in
  if existsb (has_sku (sku p)) (products d) then (d, Raise DuplicateSkuError)
  else
    let rowid := Z.max (autoinc d) (max_rowid (products d)) + 1 in
    let row := mkRow rowid (sku p) (name p) (category p) (price p)
                 (cost p) (inventory p) (unit_ p) (description p) (active p)
                 (created_at p) (updated_at p) in
    (mkDatabase (products d ++ [row]) rowid,
     Ok (mkProduct (sku p) (name p) (category p) (price p) (cost p)
           (inventory p) (unit_ p) (description p) (active p) (Some rowid)
           (created_at p) (updated_at p))).

Definition list_rows (category0 : option string) (active_only : bool)
    (limit : Z) (d : Database) : list Row :=
  let t1 := if active_only then sql_where col_active (products d)
            else products d in
  let t2 := match category0 with
            | Some c =>
                if Text.is_empty c then t1
                else sql_where (fun r => String.eqb (col_category r) c) t1
            | None => t1
            end in
  sql_limit limit (merge_sort by_category_name t2).

Definition list_products (category0 : option string) (active_only : bool)
    (limit : Z) (d : Database) : list Product :=
  map _row_to_product (list_rows category0 active_only limit d).

Definition search_matches (query : string) (r : Row) : bool :=
  let pattern := Text.contains_pattern query in
  Text.like pattern (col_sku r) || Text.like pattern (col_name r)
  || Text.like pattern (col_category r)
  || Text.like pattern (col_description r).

Definition search (query : string) (d : Database) : list Product :=
  map _row_to_product
    (merge_sort by_name (sql_where (search_matches query) (products d))).

Definition adjust (delta : Z) (now : string) (r : Row) : Row :=
  mkRow (col_id r) (col_sku r) (col_name r) (col_category r)
    (col_price r) (col_cost r) (Z.max 0 (col_inventory r + delta))
    (col_unit r) (col_description r) (col_active r) (col_created_at r) now.

Definition update_inventory (now : string) (sku0 : string) (delta : Z)
    (d : Database) : Database * option Product :=
  let key := Text.upper sku0 in
  let t := map (fun r => if has_sku key r then adjust delta now r else r)
             (products d) in
  (mkDatabase t (autoinc d),
   option_map _row_to_product (List.find (has_sku key) t)).

End Catalog.

(** ** The [csv] writer (dialect excel, QUOTE_MINIMAL) *)

Module Csv.

Definition quotechar : ascii := ascii_of_nat 34.
Definition delimiter : ascii := ","%char.
Definition lineterminator : string :=
  String (ascii_of_nat 13) (String (ascii_of_nat 10) EmptyString).

Definition is_special (c : ascii) : bool :=
  Ascii.eqb c delimiter || Ascii.eqb c quotechar
  || Ascii.eqb c (ascii_of_nat 13) || Ascii.eqb c (ascii_of_nat 10).

Fixpoint double_quotes (s : string) : string :=
  match s with
  | EmptyString => EmptyString
  | String c s' =>
      if Ascii.eqb c quotechar
      then String quotechar (String quotechar (double_quotes s'))
      else String c (double_quotes s')
  end.

Definition quoted (s : string) : string :=
  String quotechar (double_quotes s +:+ String quotechar EmptyString).

Definition field (s : string) : string :=
  if Text.has_char is_special s then quoted s else s.

Fixpoint join (fields : list string) : string :=
  match fields with
  | [] => EmptyString
  | [f] => f
  | f :: rest => f +:+ String delimiter (join rest)
  end.

(** A record that would print as nothing (one empty field) is quoted. *)
Definition writerow (fields : list string) : string :=
  let line := join (map field fields) in
  match fields with
  | [_] => if Text.is_empty line then quoted EmptyString +:+ lineterminator
           else line +:+ lineterminator
  | _ => line +:+ lineterminator
  end.

Fixpoint writerows (records : list (list string)) : string :=
  match records with
  | [] => EmptyString
  | r :: rest => writerow r +:+ writerows rest
  end.

End Csv.

Definition str_int (z : Z) : string := pretty z.

Definition str_bool (b : bool) : string := if b then "True" else "False".

Section Reports.
Context {real : Type} `{FloatOps real}.

Definition csv_header : list string :=
  ["SKU"; "Name"; "Category"; "Price"; "Cost"; "Margin%"; "Inventory";
   "Unit"; "Status"; "Active"].

Definition csv_record (p : Product real) : list string :=
  [sku p; name p; category p;
   format_f 2 (price p); format_f 2 (cost p); format_f 1 (margin_pct p);
   str_int (inventory p); unit_ p; status_name (inventory_status p);
   str_bool (active p)].

Definition export_limit : Z := 100000.

Definition export_products (d : Database real) : list (Product real) :=
  list_products None false export_limit d.

Definition csv_content (d : Database real) : string :=
  Csv.writerows (csv_header :: map csv_record (export_products d)).

Record Stats : Type := mkStats {
  total : Z;
  out_of_stock : Z;
  low_stock : Z;
  in_stock : Z;
  inventory_value : number real;
  categories : gmap string Z
}.

Definition sql_count (cond : Row real -> bool) (t : list (Row real)) : Z :=
  Z.of_nat (length (sql_where cond t)).

(** [SELECT category, COUNT( * ) ... GROUP BY category]: one result row per
    category that occurs. *)
Definition sql_group_count (t : list (Row real)) : list (string * Z) :=
  map (fun c => (c, sql_count (fun r => String.eqb (col_category r) c) t))
    (merge_sort String.le (remove_dups (map col_category t))).

(** [SUM(price * inventory)]: a product that is not a number is NULL and
    is skipped; the sum is NULL when no term is left, and when it is not a
    number itself. *)
Definition sql_sum_value (t : list (Row real)) : option real :=
  let terms :=
    List.filter (fun x => negb (is_nan x))
      (map (fun r => fmul (col_price r) (of_int (col_inventory r))) t) in
  match terms with
  | [] => None
  | _ :: _ => let s := sql_sum terms in if is_nan s then None else Some s
  end.

(** [x or 0] *)
Definition or_zero (x : option real) : number real :=
  match x with
  | Some v => if truthy v then Float v else Int 0
  | None => Int 0
  end.

(** [round(v, 2)]: an [int] is returned as it is. *)
Definition round_number (v : number real) (ndigits : Z) : number real :=
  match v with
  | Int z => Int z
  | Float x => Float (py_round x ndigits)
  end.

Definition dict_of (items : list (string * Z)) : gmap string Z :=
  fold_left (fun m kv => <[kv.1 := kv.2]> m) items ∅.

Definition get_catalog_stats (d : Database real) : Stats :=
  let t := products d in
  let total0 := sql_count col_active t in
  let out0 := sql_count (fun r => col_active r && (col_inventory r =? 0)) t in
  let low0 :=
    sql_count (fun r => col_active r && (0 <? col_inventory r)
                        && (col_inventory r <? 10)) t in
  let cats := sql_group_count (sql_where col_active t) in
  let value := or_zero (sql_sum_value (sql_where col_active t)) in
  {| total := total0;
     out_of_stock := out0;
     low_stock := low0;
     in_stock := total0 - out0 - low0;
     inventory_value := round_number value 2;
     categories := dict_of cats |}.

End Reports.
Arguments Stats : clear implicits.

(** ** The IEEE binary64 instance

    Python's [float] and SQLite's REAL are IEEE binary64, which is Rocq's
    primitive [float].  A finite value is [m * 2^e] exactly, so rounding to
    a number of decimals and printing in fixed notation are integer
    arithmetic: both round to nearest with ties to even on the exact value. *)

Module Binary64.

Definition of_Z (z : Z) : float :=
  SF2Prim (binary_normalize prec emax z 0 false).

(** Nearest integer to [num / den], ties to even, for [0 <= num], [0 < den]. *)
Definition div_half_even (num den : Z) : Z :=
  let q := num / den in
  match (2 * (num mod den) ?= den) with
  | Lt => q
  | Gt => q + 1
  | Eq => if Z.even q then q else q + 1
  end.

(** Nearest integer to [m * 2^e * 10^d]. *)
Definition scaled (m : positive) (e : Z) (d : Z) : Z :=
  let num := Zpos m * (if 0 <=? e then 2 ^ e else 1)
             * (if 0 <=? d then 10 ^ d else 1) in
  let den := (if 0 <=? e then 1 else 2 ^ (- e))
             * (if 0 <=? d then 1 else 10 ^ (- d)) in
  div_half_even num den.

Definition digit (n : Z) : ascii := ascii_of_N (48 + Z.to_N n).

(** The last [d] decimal digits of [n]. *)
Fixpoint digits (d : nat) (n : Z) : string :=
  match d with
  | O => EmptyString
  | S d' => digits d' (n / 10) +:+ String (digit (n mod 10)) EmptyString
  end.

Definition fixed (d : nat) (n : Z) : string :=
  let whole := pretty (n / 10 ^ Z.of_nat d) in
  match d with
  | O => whole
  | S _ => whole +:+ String "."%char (digits d n)
  end.

Definition sign (s : bool) : string := if s then "-" else EmptyString.

Definition format_fixed (d : nat) (x : float) : string :=
  match Prim2SF x with
  | S754_nan => "nan"
  | S754_infinity s => sign s +:+ "inf"
  | S754_zero s => sign s +:+ fixed d 0
  | S754_finite s m e => sign s +:+ fixed d (scaled m e (Z.of_nat d))
  end.

(** [s] is an optional minus sign, a whole number, a point and exactly [n]
    decimal digits. *)
Definition has_decimals (n : nat) (s : string) : Prop :=
  exists (negative : bool) (whole : Z) (decimals : string),
    s = sign negative +:+ pretty whole +:+ String "."%char decimals
    /\ 0 <= whole
    /\ String.length decimals = n
    /\ Text.all_chars Text.is_digit decimals = true.

(** [round(x, ndigits)]: the float nearest to the decimal that [x] rounds
    to. *)
Definition round (x : float) (ndigits : Z) : float :=
  match Prim2SF x with
  | S754_finite s m e =>
      let n := scaled m e ndigits in
      let num := match n with
                 | Zpos p => S754_finite s p 0
                 | _ => S754_zero s
                 end in
      if 0 <=? ndigits
      then SF2Prim (SFdiv prec emax num
                      (S754_finite false (Z.to_pos (10 ^ ndigits)) 0))
      else SF2Prim (SFmul prec emax num
                      (S754_finite false (Z.to_pos (10 ^ (- ndigits))) 0))
  | _ => x
  end.

(** Summation in table order from 0.0, every addition rounded. *)
Definition sum (xs : list float) : float :=
  fold_left PrimFloat.add xs PrimFloat.zero.

#[global] Instance ops : FloatOps float := {|
  of_int := of_Z;
  fsub := PrimFloat.sub;
  fmul := PrimFloat.mul;
  fdiv := PrimFloat.div;
  fle := PrimFloat.leb;
  truthy := fun x => negb (PrimFloat.eqb x PrimFloat.zero);
  is_nan := PrimFloat.is_nan;
  py_round := round;
  format_f := format_fixed;
  sql_sum := sum
|}.

End Binary64.

(** ** The limits of SQLite and of the [sqlite3] module *)

Module Sqlite.

Definition INT64_MAX : Z := 2 ^ 63 - 1.
Definition INT64_MIN : Z := - 2 ^ 63.

(** A Python [int] is bound as an INTEGER when it fits 64 bits. *)
Definition fits_int64 (z : Z) : bool := (INT64_MIN <=? z) && (z <=? INT64_MAX).

Definition int_too_large : error :=
  OverflowError "Python int too large to convert to SQLite INTEGER".

(** SQLITE_MAX_LIKE_PATTERN_LENGTH, in bytes *)
Definition MAX_LIKE_PATTERN_LENGTH : Z := 50000.

Definition pattern_too_complex : error :=
  OperationalError "LIKE or GLOB pattern too complex".

Definition price_is_null : error :=
  IntegrityError "NOT NULL constraint failed: products.price".

(** AUTOINCREMENT has no id left after the largest one. *)
Definition database_full : error :=
  OperationalError "database or disk is full".

(** The largest id that the table holds or has held. *)
Definition last_rowid {real : Type} (d : Database real) : Z :=
  Z.max (autoinc d) (max_rowid (products d)).

End Sqlite.

(** [format(None, ".2f")] *)
Definition format_of_none : error :=
  TypeError "unsupported format string passed to NoneType.__format__".

(** ** [ProductCatalog] as Python and SQLite run it *)

Module ProductCatalog.

(** What a call of [update_inventory] does: it returns, it raises and
    leaves the table as it was, or it stores the REAL [x] as the inventory
    of the product, which makes a table that [Database] does not hold. *)
Inductive adjustment : Type :=
  | Returned (d' : Database float) (p : option (Product float))
  | Raised (e : error)
  | StoredReal (x : float).

Section Methods.
Context `{Unicode}.

Local Abbreviation Row := (Row float).
Local Abbreviation Product := (Product float).
Local Abbreviation Database := (Database float).

(** The parameters are bound first, and an [inventory] beyond 64 bits
    stops the call there.  The INSERT then takes the next id, checks NOT
    NULL (a NaN is bound as NULL) and last the UNIQUE index.  A NaN [cost]
    is stored as NULL: the row shows it as the NaN it is given. *)
Definition add_product (created updated : string)
    (sku0 name0 category0 : string) (price0 cost0 : float) (inventory0 : Z)
    (unit0 description0 : string) (d : Database)
  : Database * result Product :=
  let p := mkProduct (str_upper sku0) name0 category0 price0 cost0
             inventory0 unit0 description0 true None created updated in
  if negb (Sqlite.fits_int64 (inventory p))
  then (d, Raise Sqlite.int_too_large)
  else if Sqlite.INT64_MAX <=? Sqlite.last_rowid d
  then (d, Raise Sqlite.database_full)
  else if PrimFloat.is_nan (price p) then (d, Raise Sqlite.price_is_null)
  else if existsb (has_sku (sku p)) (products d)
  then (d, Raise DuplicateSkuError)
  else
    let rowid := Sqlite.last_rowid d + 1 in
    let row := mkRow rowid (sku p) (name p) (category p) (price p)
                 (cost p) (inventory p) (unit_ p) (description p) (active p)
                 (created_at p) (updated_at p) in
    (mkDatabase (products d ++ [row]) rowid,
     Ok (mkProduct (sku p) (name p) (category p) (price p) (cost p)
           (inventory p) (unit_ p) (description p) (active p) (Some rowid)
           (created_at p) (updated_at p))).

(** A [limit] beyond 64 bits cannot be bound. *)
Definition list_products (category0 : option string) (active_only : bool)
    (limit : Z) (d : Database) : result (list Product) :=
  if Sqlite.fits_int64 limit
  then Ok (map _row_to_product (list_rows category0 active_only limit d))
  else Raise Sqlite.int_too_large.

(** [LIKE] refuses a pattern of more than 50000 bytes when it is first
    evaluated, which is on the first row of the table. *)
Definition search (query : string) (d : Database) : result (list Product) :=
  let pattern := Text.contains_pattern query in
  match products d with
  | [] => Ok []
  | _ :: _ =>
      if Sqlite.MAX_LIKE_PATTERN_LENGTH <? Z.of_nat (String.length pattern)
      then Raise Sqlite.pattern_too_complex
      else Ok (map _row_to_product
                 (merge_sort by_name
                    (sql_where (search_matches query) (products d))))
  end.

(** [inventory + ?] leaves 64 bits upwards.  (Downwards the REAL sum is
    negative and [MAX(0, ...)] is the INTEGER 0, as in [adjust].) *)
Definition overflows (delta : Z) (r : Row) : bool :=
  Sqlite.INT64_MAX <? col_inventory r + delta.

(** A [delta] beyond 64 bits cannot be bound.  When the sum overflows,
    SQLite adds the two as REAL and the column keeps the REAL. *)
Definition update_inventory (now sku0 : string) (delta : Z) (d : Database)
  : adjustment :=
  let key := str_upper sku0 in
  if negb (Sqlite.fits_int64 delta) then Raised Sqlite.int_too_large
  else
    match List.find (fun r => has_sku key r && overflows delta r)
            (products d) with
    | Some r =>
        StoredReal (PrimFloat.add (Binary64.of_Z (col_inventory r))
                      (Binary64.of_Z delta))
    | None =>
        let t := map (fun r => if has_sku key r then adjust delta now r
                               else r) (products d) in
        Returned (mkDatabase t (autoinc d))
          (option_map _row_to_product (List.find (has_sku key) t))
    end.

(** A cost that is NULL in the table is [None] in the product read from
    it. *)
Definition cost_is_none (p : Product) : bool := PrimFloat.is_nan (cost p).

(** The files are a map from path to text; [write_text] replaces the
    text.  A [Path] that is given is true, so it is written to.
    [f"{p.cost:.2f}"] raises on [None], before anything is written. *)
Definition export_csv (output_path : option string) (d : Database)
    (files : gmap string string) : gmap string string * result string :=
  match list_products None false export_limit d with
  | Raise e => (files, Raise e)
  | Ok listing =>
      if existsb cost_is_none listing then (files, Raise format_of_none)
      else
        let text := Csv.writerows (csv_header :: map csv_record listing) in
        match output_path with
        | Some path => (<[path := text]> files, Ok text)
        | None => (files, Ok text)
        end
  end.

End Methods.
End ProductCatalog.

(** ** Invariants of the table and the properties the operations are
    compared with *)

Section Properties.
Context {real : Type}.

Definition skus (d : Database real) : list string :=
  map col_sku (products d).

(** The UNIQUE constraint on [sku]. *)
Definition unique_skus (d : Database real) : Prop := NoDup (skus d).

(** Every stored sku is in upper case, as [add_product] writes it. *)
Definition normalized (d : Database real) : Prop :=
  Forall (fun r => Text.upper (col_sku r) = col_sku r) (products d).

(** The rows [list_products] selects. *)
Definition listed (category0 : option string) (active_only : bool)
    (r : Row real) : bool :=
  (negb active_only || col_active r)
  && match category0 with
     | Some c => Text.is_empty c || String.eqb (col_category r) c
     | None => true
     end.

(** The query occurs in one of the four text columns, each read up to its
    first zero byte, the case of ASCII letters ignored. *)
Definition mentions (query : string) (r : Row real) : Prop :=
  Text.ci_substring query (Text.c_str (col_sku r))
  \/ Text.ci_substring query (Text.c_str (col_name r))
  \/ Text.ci_substring query (Text.c_str (col_category r))
  \/ Text.ci_substring query (Text.c_str (col_description r)).



Definition count_rows (P : Row real -> Prop) `{!forall r, Decision (P r)}
    (t : list (Row real)) : Z :=
  Z.of_nat (length (filter P t)).

(** Every column but [inventory] and [updated_at] agrees. *)
Definition same_but_inventory (r r' : Row real) : Prop :=
  col_id r' = col_id r /\ col_sku r' = col_sku r
  /\ col_name r' = col_name r /\ col_category r' = col_category r
  /\ col_price r' = col_price r /\ col_cost r' = col_cost r
  /\ col_unit r' = col_unit r /\ col_description r' = col_description r
  /\ col_active r' = col_active r /\ col_created_at r' = col_created_at r.

(** The tables that the methods of [ProductCatalog] produce from a new
    database file. *)
Inductive reachable : Database real -> Prop :=
  | reach_empty : reachable empty_db
  | reach_add created updated sku0 name0 category0 price0 cost0 inventory0
      unit0 description0 d :
      reachable d ->
      reachable (fst (add_product created updated sku0 name0 category0 price0
                        cost0 inventory0 unit0 description0 d))
  | reach_update now sku0 delta d :
      reachable d ->
      reachable (fst (update_inventory now sku0 delta d)).

Definition to_float `{FloatOps real} (v : number real) : real :=
  match v with
  | Int z => of_int z
  | Float x => x
  end.

End Properties.

(** ** What the inventory value is compared with *)

(** [n] is the integer nearest to [num / den], the even one of two that
    are equally near. *)
Definition nearest_even (num den n : Z) : Prop :=
  2 * Z.abs (num - n * den) <= den
  /\ (2 * Z.abs (num - n * den) = den -> Z.even n = true).

(** The products [price * inventory] of the active rows that are
    numbers, in table order. *)
Definition value_terms (d : Database float) : list float :=
  List.filter (fun x => negb (PrimFloat.is_nan x))
    (map (fun r => PrimFloat.mul (col_price r)
                     (Binary64.of_Z (col_inventory r)))
       (List.filter col_active (products d))).

(** The inventory value in the spec's words: the sum of price times
    inventory over the active products, rounded to 2 decimals. *)
Definition spec_inventory_value (d : Database float) : float :=
  Binary64.round
    (fold_left PrimFloat.add
       (map (fun r => PrimFloat.mul (col_price r)
                        (Binary64.of_Z (col_inventory r)))
          (List.filter col_active (products d)))
       0%float) 2.

(** ** Catalogs used as examples *)

Definition stamp : string := "2024-01-01T00:00:00".

(** A product as the dataclass builds it, before it is stored. *)
Definition sample (price0 cost0 : float) (inventory0 : Z) : Product float :=
  mkProduct "WID-1" "Widget" "Widgets" price0 cost0 inventory0 "ea"
    EmptyString true None stamp stamp.

Definition added (sku0 name0 category0 : string) (price0 cost0 : float)
    (inventory0 : Z) (description0 : string) (d : Database float)
  : Database float :=
  fst (add_product stamp stamp sku0 name0 category0 price0 cost0 inventory0
         "ea" description0 d).

Definition demo_db : Database float :=
  added "gad-7" "Gadget" "Tools" 19.5 12 0 EmptyString
    (added "box-2" "Crate" "Widgets" 4 1 25 "wooden"
       (added "wid-1" "Widget" "Parts" 9.99 4.5 5 EmptyString empty_db)).

(** A product entered with a negative stock count. *)
Definition overdrawn_db : Database float :=
  added "neg-1" "Backorder" "Parts" 1 0 (-1) EmptyString empty_db.

(** Two products, one of them with the empty category. *)
Definition uncategorised_db : Database float :=
  added "b-1" "Bolt" EmptyString 1 0 3 EmptyString
    (added "a-1" "Anvil" "Tools" 1 0 3 EmptyString empty_db).

(** A product entered with an infinite price. *)
Definition priceless_db : Database float :=
  added "inf-1" "Comet" "Sky" PrimFloat.infinity 0 1 EmptyString empty_db.

(** The first row of [demo_db]. *)
Definition widget_row : Row float :=
  mkRow 1 "WID-1" "Widget" "Parts" 9.99%float 4.5%float 5 "ea" EmptyString
    true stamp stamp.

Definition numbered_row (n : nat) : Row float :=
  mkRow (Z.of_nat n) ("P" +:+ pretty n) ("Item " +:+ pretty n) "Bulk"
    1%float 0%float 1 "ea" EmptyString true stamp stamp.

Definition export_limit_nat : nat := Z.to_nat 100000.

(** A catalog with one product more than the export asks for. *)
Definition big_db : Database float :=
  mkDatabase (map numbered_row (seq 1 (S export_limit_nat)))
    (Z.of_nat (S export_limit_nat)).

(** [demo_db] with a product whose value is not a number of cents. *)
Definition rounding_db : Database float :=
  added "odd-1" "Shim" "Parts" 0.125 0.05 1 EmptyString demo_db.

(** A product with an infinite price and none in stock, and an ordinary
    one. *)
Definition idle_comet_db : Database float :=
  added "two-1" "Pair" "Sky" 2.5 1 2 EmptyString
    (added "inf-1" "Comet" "Sky" PrimFloat.infinity 0 0 EmptyString
       empty_db).

(** A product added with a NaN cost: its cost is NULL. *)
Definition null_cost_db : Database float :=
  added "nul-1" "Gift" "Parts" 1 PrimFloat.nan 1 EmptyString empty_db.

(** ** Colours of the terminal output *)

Module Ansi.

Definition esc (code : string) : string :=
  String (ascii_of_nat 27) ("[" +:+ code +:+ "m").

Definition GREEN : string := esc "92".
Definition YELLOW : string := esc "93".
Definition RED : string := esc "91".
Definition RESET : string := esc "0".

End Ansi.

Definition status_colors : gmap string string :=
  <["OUT_OF_STOCK" := Ansi.RED]>
    (<["LOW_STOCK" := Ansi.YELLOW]> (<["IN_STOCK" := Ansi.GREEN]> ∅)).

(** [Product.inventory_color]: [dict.get(status, RESET)]. *)
Definition inventory_color {real : Type} (p : Product real) : string :=
  default Ansi.RESET (status_colors !! status_name (inventory_status p)).

(** ** One call of a method that writes *)

Inductive step {real : Type} : Database real -> Database real -> Prop :=
  | step_add created updated sku0 name0 category0 price0 cost0 inventory0
      unit0 description0 d :
      step d (fst (add_product created updated sku0 name0 category0 price0
                     cost0 inventory0 unit0 description0 d))
  | step_update now sku0 delta d :
      step d (fst (update_inventory now sku0 delta d)).

(** The tables that the methods, as Python and SQLite run them, produce
    from a new database file. *)
Inductive built `{Unicode} : Database float -> Prop :=
  | built_empty : built empty_db
  | built_add created updated sku0 name0 category0 price0 cost0 inventory0
      unit0 description0 d d' p :
      built d ->
      ProductCatalog.add_product created updated sku0 name0 category0 price0
        cost0 inventory0 unit0 description0 d = (d', Ok p) ->
      built d'
  | built_update now sku0 delta d d' p :
      built d ->
      ProductCatalog.update_inventory now sku0 delta d
      = ProductCatalog.Returned d' p ->
      built d'.

(** No stored inventory is negative. *)
Definition stocked {real : Type} (d : Database real) : Prop :=
  Forall (fun r => 0 <= col_inventory r) (products d).

(** The row ids grow along the table and stay within the AUTOINCREMENT
    counter. *)
Definition ids_ordered {real : Type} (d : Database real) : Prop :=
  StronglySorted Z.lt (map col_id (products d))
  /\ Forall (fun r => 0 < col_id r <= autoinc d) (products d).

(** The counts of a category mapping added up. *)
Definition sum_counts (m : gmap string Z) : Z :=
  map_fold (fun _ n acc => n + acc) 0 m.

#[global] Instance status_eq_dec : EqDecision status.
Proof. solve_decision. Defined.

(** An active row whose product has the status [s]. *)
Definition has_status {real : Type} (s : status) (r : Row real) : Prop :=
  col_active r = true /\ inventory_status (_row_to_product r) = s.

#[global] Instance has_status_dec {real : Type} (s : status) (r : Row real) :
  Decision (has_status s r).
Proof. unfold has_status. apply _. Defined.

(** Python's [x / y] on floats: ZeroDivisionError, here [None], when [y]
    is zero. *)
Definition truediv (x y : float) : option float :=
  if PrimFloat.eqb y 0 then None else Some (PrimFloat.div x y).

(** [Product.margin_pct] with the division that can fail. *)
Definition margin_pct_checked (p : Product float) : option float :=
  if PrimFloat.leb (price p) (Binary64.of_Z 0) then Some (Binary64.of_Z 0)
  else
    match truediv (PrimFloat.sub (price p) (cost p)) (price p) with
    | Some q =>
        Some (Binary64.round (PrimFloat.mul q (Binary64.of_Z 100)) 2)
    | None => None
    end.

(** [demo_db] before its last product was added, and the row of that
    product. *)
Definition demo_base : Database float :=
  added "box-2" "Crate" "Widgets" 4 1 25 "wooden"
    (added "wid-1" "Widget" "Parts" 9.99 4.5 5 EmptyString empty_db).

Definition gadget_row : Row float :=
  mkRow 3 "GAD-7" "Gadget" "Tools" 19.5%float 12%float 0 "ea" EmptyString
    true stamp stamp.

(** [demo_base] after the gadget was added and the widget restocked. *)
Definition restocked_db : Database float :=
  fst (update_inventory "later" "wid-1" 7 demo_db).

Example upper_ex : Text.upper "wid-01b" = "WID-01B".
Proof. reflexivity. Qed.

Example like_ex1 : Text.like (Text.contains_pattern "wid") "Widget" = true.
Proof. reflexivity. Qed.

Example like_ex2 : Text.like (Text.contains_pattern "wid") "Gadget" = false.
Proof. reflexivity. Qed.

Example like_ex3 : Text.like (Text.contains_pattern "_") "A" = true.
Proof. reflexivity. Qed.

Example margin_pct_100_70 : margin_pct (sample 100 70 0) = 30%float.
Proof. vm_compute. reflexivity. Qed.

Example margin_pct_0_5 : margin_pct (sample 0 5 0) = 0%float.
Proof. vm_compute. reflexivity. Qed.

Example format_examples :
  map (format_f 2) [9.99; 0.125; 2.675; 1234.5; -0.001; 1e22]%float
  = ["9.99"; "0.12"; "2.67"; "1234.50"; "-0.00";
     "10000000000000000000000.00"]
  /\ map (format_f 1) [30; 0.25; 0.35; 99.95]%float
     = ["30.0"; "0.2"; "0.3"; "100.0"].
Proof. vm_compute. split; reflexivity. Qed.

(** * Facts about text *)

Section TextFacts.
Import Text.

Lemma app_cons (c : ascii) (s t : string) :
  String c s +:+ t = String c (s +:+ t).
Proof. reflexivity. Qed.

Lemma app_empty_l (s : string) : EmptyString +:+ s = s.
Proof. reflexivity. Qed.

Lemma app_empty_r (s : string) : s +:+ EmptyString = s.
Proof. induction s as [|c s IH]; [reflexivity|]. now rewrite app_cons, IH. Qed.

Lemma app_assoc_s (s t u : string) : (s +:+ t) +:+ u = s +:+ (t +:+ u).
Proof.
  induction s as [|c s IH]; [reflexivity|]. now rewrite !app_cons, IH.
Qed.

Lemma map_chars_app (f : ascii -> ascii) (s t : string) :
  map_chars f (s +:+ t) = map_chars f s +:+ map_chars f t.
Proof.
  induction s as [|c s IH]; [reflexivity|].
  rewrite app_cons. simpl. now rewrite IH, app_cons.
Qed.

Lemma map_chars_length (f : ascii -> ascii) (s : string) :
  String.length (map_chars f s) = String.length s.
Proof. induction s as [|c s IH]; [reflexivity|]. simpl. now rewrite IH. Qed.

Lemma to_upper_idem (c : ascii) : to_upper (to_upper c) = to_upper c.
Proof. destruct c as [[] [] [] [] [] [] [] []]; reflexivity. Qed.

Lemma upper_idem (s : string) : upper (upper s) = upper s.
Proof.
  induction s as [|c s IH]; [reflexivity|].
  unfold upper in *. simpl. now rewrite to_upper_idem, IH.
Qed.

Lemma fold_case_upper (s : string) : fold_case (upper s) = fold_case s.
Proof.
  unfold fold_case, upper. induction s as [|c s IH]; [reflexivity|].
  cbn [map_chars]. rewrite IH. f_equal.
  destruct c as [[] [] [] [] [] [] [] []]; reflexivity.
Qed.

Lemma fold_case_idem (s : string) : fold_case (fold_case s) = fold_case s.
Proof.
  unfold fold_case. induction s as [|c s IH]; [reflexivity|].
  cbn [map_chars]. rewrite IH. f_equal.
  destruct c as [[] [] [] [] [] [] [] []]; reflexivity.
Qed.

(** ** Zero bytes and UTF-8 characters *)

Lemma has_char_app (p : ascii -> bool) (s t : string) :
  has_char p (s +:+ t) = has_char p s || has_char p t.
Proof.
  induction s as [|c s IH]; [reflexivity|].
  rewrite app_cons. simpl. now rewrite IH, orb_assoc.
Qed.

Lemma c_str_whole (s : string) : has_char is_nul s = false -> c_str s = s.
Proof.
  induction s as [|c s IH]; [reflexivity|]. cbn [has_char c_str].
  intros [Hc Hs]%orb_false_iff. now rewrite Hc, IH.
Qed.

Lemma c_str_app (s t : string) :
  c_str (s +:+ t)
  = if has_char is_nul s then c_str s else s +:+ c_str t.
Proof.
  induction s as [|c s IH]; [reflexivity|].
  rewrite app_cons. cbn [c_str has_char].
  destruct (is_nul c); [reflexivity|]. cbn [orb]. rewrite IH.
  now destruct (has_char is_nul s).
Qed.

Lemma c_str_map (f : ascii -> ascii) (s : string) :
  (forall c, is_nul (f c) = is_nul c) ->
  c_str (map_chars f s) = map_chars f (c_str s).
Proof.
  intros Hf. induction s as [|c s IH]; [reflexivity|].
  cbn [map_chars c_str]. rewrite Hf.
  destruct (is_nul c); [reflexivity|]. cbn [map_chars]. now rewrite IH.
Qed.

(** A byte that continues no character is a character after whatever was
    read. *)
Lemma split_chars_snoc (b : ascii) (s : string) (open : option string) :
  is_continuation b = false ->
  split_chars open (s +:+ char1 b) = split_chars open s ++ [char1 b].
Proof.
  intros Hb. revert open. induction s as [|c s IH]; intros open.
  - rewrite app_empty_l. unfold char1. cbn [split_chars].
    destruct open; rewrite ?Hb; destruct (is_lead b); reflexivity.
  - rewrite app_cons. cbn [split_chars].
    destruct open; destruct (is_continuation c), (is_lead c);
      rewrite ?IH; reflexivity.
Qed.

Lemma split_chars_cons (b : ascii) (s : string) :
  is_lead b = false ->
  utf8_chars (String b s) = char1 b :: utf8_chars s.
Proof. intros Hb. unfold utf8_chars. cbn [split_chars]. now rewrite Hb. Qed.

Lemma utf8_chars_pattern (q : string) :
  utf8_chars (contains_pattern q)
  = char1 percent :: utf8_chars q ++ [char1 percent].
Proof.
  unfold contains_pattern. rewrite split_chars_cons by reflexivity.
  f_equal. apply (split_chars_snoc percent q None). reflexivity.
Qed.

Lemma split_chars_map (f : ascii -> ascii) (s : string)
    (open : option string) :
  (forall c, is_lead (f c) = is_lead c) ->
  (forall c, is_continuation (f c) = is_continuation c) ->
  split_chars (option_map (map_chars f) open) (map_chars f s)
  = map (map_chars f) (split_chars open s).
Proof.
  intros Hl Hc. revert open. induction s as [|c s IH]; intros open.
  - now destruct open.
  - cbn [map_chars split_chars].
    destruct open as [g|]; cbn [option_map]; rewrite ?Hl, ?Hc.
    + destruct (is_continuation c).
      * rewrite <- IH. cbn [option_map]. now rewrite map_chars_app.
      * destruct (is_lead c); cbn [map]; f_equal.
        -- apply (IH (Some (char1 c))).
        -- f_equal. apply (IH None).
    + destruct (is_lead c); cbn [map].
      * apply (IH (Some (char1 c))).
      * f_equal. apply (IH None).
Qed.



(** ** [LIKE] *)

Lemma like_percent (pat s : list string) :
  like_chars (char1 percent :: pat) s
  = like_chars pat s
    || match s with
       | [] => false
       | _ :: s' => like_chars (char1 percent :: pat) s'
       end.
Proof. destruct s; reflexivity. Qed.

Lemma like_percent_iff (pat s : list string) :
  like_chars (char1 percent :: pat) s = true
  <-> exists l s', s = l ++ s' /\ like_chars pat s' = true.
Proof.
  induction s as [|c s IH]; rewrite like_percent, orb_true_iff.
  - split.
    + intros [Hl|Hl]; [|discriminate]. now exists [], [].
    + intros (l & s' & Hs & Hl). left.
      symmetry in Hs. apply List.app_eq_nil in Hs as [_ ->]. exact Hl.
  - rewrite IH. split.
    + intros [Hl|(l & s' & -> & Hl)].
      * now exists [], (c :: s).
      * now exists (c :: l), s'.
    + intros (l & s' & Hs & Hl). destruct l as [|d l].
      * cbn in Hs. subst. now left.
      * injection Hs as -> ->. right. now exists l, s'.
Qed.

Lemma like_step (p : string) (pat : list string) (c : string)
    (s : list string) :
  is_percent p = false ->
  like_chars (p :: pat) (c :: s)
  = (is_underscore p || String.eqb (fold_case p) (fold_case c))
    && like_chars pat s.
Proof. intros Hp. cbn [like_chars]. now rewrite Hp. Qed.

Lemma like_step_nil (p : string) (pat : list string) :
  is_percent p = false -> like_chars (p :: pat) [] = false.
Proof. intros Hp. cbn [like_chars]. now rewrite Hp. Qed.





(** A literal occurrence is matched whatever the pattern characters are. *)
Lemma like_mention (q rest m s' : list string) :
  map fold_case m = map fold_case q ->
  like_chars rest s' = true ->
  like_chars (q ++ rest) (m ++ s') = true.
Proof.
  revert m. induction q as [|c q IH]; intros m Hm Hl.
  - now destruct m.
  - destruct m as [|e m]; [discriminate|]. injection Hm as He Hm.
    cbn [app]. destruct (is_percent c) eqn:Hp.
    + apply String.eqb_eq in Hp as ->. apply like_percent_iff.
      exists [e], (m ++ s'). split; [reflexivity|]. now apply IH.
    + rewrite like_step by exact Hp.
      rewrite He, String.eqb_refl, orb_true_r. cbn [andb]. now apply IH.
Qed.

Lemma like_contains_mention (q s : string) :
  has_char is_nul q = false ->
  ci_substring q (c_str s) -> like (contains_pattern q) s = true.
Proof.
  intros Hz (l & r & Hs). unfold like.
  rewrite c_str_whole, utf8_chars_pattern.
  - apply List.map_eq_app in Hs as (s1 & s2 & -> & <- & Hs).
    apply List.map_eq_app in Hs as (m & s3 & -> & Hm & <-).
    apply like_percent_iff. exists s1, (m ++ s3). split; [reflexivity|].
    apply like_mention; [exact Hm|].
    apply like_percent_iff. exists s3, []. now rewrite List.app_nil_r.
  - unfold contains_pattern. cbn [has_char]. rewrite has_char_app, Hz.
    reflexivity.
Qed.

Lemma like_mention_all (q rest : list string) :
  like_chars rest [] = true -> like_chars (q ++ rest) q = true.
Proof.
  intros Hl. pose proof (like_mention q rest q [] eq_refl Hl) as E.
  now rewrite List.app_nil_r in E.
Qed.

(** A text is found by the pattern made of it, zero bytes and wildcards
    included. *)
Lemma like_self (f : string) : like (contains_pattern f) f = true.
Proof.
  unfold like, contains_pattern. cbn [c_str].
  change (is_nul percent) with false. cbv iota.
  rewrite split_chars_cons by reflexivity.
  apply like_percent_iff. exists [], (utf8_chars (c_str f)).
  split; [reflexivity|]. rewrite c_str_app.
  destruct (has_char is_nul f) eqn:Hz.
  - rewrite <- (List.app_nil_r (utf8_chars (c_str f))) at 1.
    now apply like_mention_all.
  - rewrite (c_str_whole f Hz). cbn [c_str].
    change (is_nul percent) with false. cbv iota.
    change (String percent EmptyString) with (char1 percent).
    unfold utf8_chars. rewrite (split_chars_snoc percent f None) by reflexivity.
    now apply like_mention_all.
Qed.

Lemma like_chars_map (F : string -> string) :
  (forall g, is_percent (F g) = is_percent g) ->
  (forall g, is_underscore (F g) = is_underscore g) ->
  (forall g, fold_case (F g) = fold_case g) ->
  forall pat s, like_chars (map F pat) s = like_chars pat s.
Proof.
  intros Hp Hu Hl pat. induction pat as [|c pat IH]; intros s; [reflexivity|].
  cbn [map]. destruct (is_percent c) eqn:E.
  - assert (E' := E). rewrite <- Hp in E'.
    apply String.eqb_eq in E as ->. apply String.eqb_eq in E' as ->.
    induction s as [|e s IHs]; rewrite (like_percent (map F pat)),
      (like_percent pat), IH; [reflexivity|]. now rewrite IHs.
  - assert (E' := E). rewrite <- Hp in E'. destruct s as [|e s].
    + now rewrite !like_step_nil.
    + now rewrite !like_step, Hu, Hl, IH.
Qed.

Lemma eqb_char1_map (f : ascii -> ascii) (a : ascii) (g : string) :
  (forall c, Ascii.eqb (f c) a = Ascii.eqb c a) ->
  String.eqb (map_chars f g) (char1 a) = String.eqb g (char1 a).
Proof.
  intros Hf. destruct g as [|c [|c' g]]; [reflexivity| |].
  - cbn. now rewrite Hf.
  - cbn. now rewrite Hf.
Qed.

Lemma like_chars_upper pat s :
  like_chars (map upper pat) s = like_chars pat s.
Proof.
  apply like_chars_map; intros g.
  - apply eqb_char1_map. intros c.
    destruct c as [[] [] [] [] [] [] [] []]; reflexivity.
  - apply eqb_char1_map. intros c.
    destruct c as [[] [] [] [] [] [] [] []]; reflexivity.
  - apply fold_case_upper.
Qed.

Lemma like_chars_fold_case pat s :
  like_chars (map fold_case pat) s = like_chars pat s.
Proof.
  apply like_chars_map; intros g.
  - apply eqb_char1_map. intros c.
    destruct c as [[] [] [] [] [] [] [] []]; reflexivity.
  - apply eqb_char1_map. intros c.
    destruct c as [[] [] [] [] [] [] [] []]; reflexivity.
  - apply fold_case_idem.
Qed.

Lemma contains_pattern_map (f : ascii -> ascii) (q : string) :
  f percent = percent ->
  contains_pattern (map_chars f q) = map_chars f (contains_pattern q).
Proof.
  intros Hf. unfold contains_pattern. cbn [map_chars].
  rewrite map_chars_app. cbn [map_chars]. now rewrite Hf.
Qed.

(** The case of the ASCII letters of a pattern does not matter. *)
Lemma like_pattern_case (f : ascii -> ascii) (q s : string) :
  f = to_upper \/ f = to_lower ->
  like (contains_pattern (map_chars f q)) s = like (contains_pattern q) s.
Proof.
  intros Hf. unfold like.
  assert (H1 : f percent = percent) by (destruct Hf as [->| ->]; reflexivity).
  assert (H2 : forall c, is_nul (f c) = is_nul c).
  { intros c. destruct Hf as [->| ->];
      destruct c as [[] [] [] [] [] [] [] []]; reflexivity. }
  assert (H3 : forall c, is_lead (f c) = is_lead c).
  { intros c. destruct Hf as [->| ->];
      destruct c as [[] [] [] [] [] [] [] []]; reflexivity. }
  assert (H4 : forall c, is_continuation (f c) = is_continuation c).
  { intros c. destruct Hf as [->| ->];
      destruct c as [[] [] [] [] [] [] [] []]; reflexivity. }
  rewrite contains_pattern_map, c_str_map by assumption.
  unfold utf8_chars at 1.
  rewrite (split_chars_map f _ None H3 H4).
  destruct Hf as [->| ->].
  - apply like_chars_upper.
  - apply like_chars_fold_case.
Qed.

(** ** The algorithm and what a pattern matches *)





Lemma starts_with_spec (p s : list string) :
  starts_with p s = true <-> exists r, s = p ++ r.
Proof.
  revert s. induction p as [|a p IH]; intros s.
  - split; [intros _; now exists s|reflexivity].
  - destruct s as [|b s]; cbn [starts_with].
    + split; [discriminate|]. intros (r & Hr). discriminate.
    + rewrite andb_true_iff, String.eqb_eq, IH. split.
      * intros (-> & r & ->). now exists r.
      * intros (r & Hr). injection Hr as -> ->.
        split; [reflexivity|now exists r].
Qed.

Lemma occurs_spec (needle hay : list string) :
  occurs needle hay = true <-> exists l r, hay = l ++ needle ++ r.
Proof.
  induction hay as [|c hay IH]; cbn [occurs]; rewrite orb_true_iff.
  - rewrite starts_with_spec. split.
    + intros [(r & Hr)|]; [|discriminate]. now exists [], r.
    + intros (l & r & Hh). left. destruct l; [|discriminate]. now exists r.
  - rewrite starts_with_spec, IH. split.
    + intros [(r & Hr)|(l & r & ->)].
      * now exists [], r.
      * now exists (c :: l), r.
    + intros (l & r & Hh). destruct l as [|e l].
      * left. now exists r.
      * right. injection Hh as -> ->. now exists l, r.
Qed.

Lemma ci_substring_occurs (needle hay : string) :
  ci_substring needle hay
  <-> occurs (map fold_case (utf8_chars needle))
        (map fold_case (utf8_chars hay)) = true.
Proof. unfold ci_substring. now rewrite occurs_spec. Qed.

Lemma ci_substring_refl (s : string) : ci_substring s s.
Proof. exists [], []. now rewrite List.app_nil_r. Qed.

End TextFacts.

(** * The table under [add_product] and [update_inventory] *)

Section StoreFacts.
Context {real : Type}.
Implicit Types (d : Database real) (r : Row real) (t : list (Row real)).

Lemma database_eta d : mkDatabase (products d) (autoinc d) = d.
Proof. now destruct d. Qed.

Lemma has_sku_true key r : has_sku key r = true <-> col_sku r = key.
Proof. unfold has_sku. apply String.eqb_eq. Qed.

Lemma has_sku_false key r : has_sku key r = false <-> col_sku r <> key.
Proof. unfold has_sku. apply String.eqb_neq. Qed.

Lemma existsb_has_sku key t :
  existsb (has_sku key) t = true <-> In key (map col_sku t).
Proof.
  rewrite existsb_exists, List.in_map_iff.
  split; intros (r & H1 & H2).
  - exists r. split; [now apply has_sku_true|easy].
  - exists r. split; [easy|now apply has_sku_true].
Qed.

Lemma adjust_sku delta now r : col_sku (adjust delta now r) = col_sku r.
Proof. reflexivity. Qed.

Lemma adjust_same delta now r : same_but_inventory r (adjust delta now r).
Proof. unfold same_but_inventory. now repeat split. Qed.

Lemma update_rows_skus key delta now t :
  map col_sku (map (fun r => if has_sku key r then adjust delta now r else r) t)
  = map col_sku t.
Proof.
  induction t as [|x t IH]; [reflexivity|].
  simpl. rewrite IH. now destruct (has_sku key x).
Qed.

Lemma update_rows_absent key delta now t :
  ~ In key (map col_sku t) ->
  map (fun r => if has_sku key r then adjust delta now r else r) t = t
  /\ List.find (has_sku key) t = None.
Proof.
  induction t as [|x t IH]; intros Hk; [easy|].
  simpl in *. assert (Hx : has_sku key x = false).
  { apply has_sku_false. intros E. apply Hk. now left. }
  rewrite Hx. destruct IH as [IH1 IH2]; [intros E; apply Hk; now right|].
  now rewrite IH1, IH2.
Qed.

Lemma update_rows_present key delta now l1 r l2 :
  ~ In key (map col_sku l1) -> ~ In key (map col_sku l2) ->
  col_sku r = key ->
  let t' := map (fun x => if has_sku key x then adjust delta now x else x)
              (l1 ++ r :: l2) in
  t' = l1 ++ adjust delta now r :: l2
  /\ List.find (has_sku key) t' = Some (adjust delta now r).
Proof.
  intros H1 H2 Hr. cbv zeta. rewrite List.map_app. cbn [map].
  destruct (update_rows_absent key delta now l1 H1) as [E1 F1].
  destruct (update_rows_absent key delta now l2 H2) as [E2 _].
  rewrite E1, E2. apply has_sku_true in Hr. rewrite Hr. split; [reflexivity|].
  assert (Hr' : has_sku key (adjust delta now r) = true) by exact Hr.
  clear E1 E2 H1 H2. induction l1 as [|x l1 IH]; cbn [app List.find] in *.
  - now rewrite Hr'.
  - destruct (has_sku key x); [discriminate|]. now apply IH.
Qed.

Lemma unique_split t r :
  NoDup (map col_sku t) -> In r t ->
  exists l1 l2, t = l1 ++ r :: l2
    /\ ~ In (col_sku r) (map col_sku l1) /\ ~ In (col_sku r) (map col_sku l2).
Proof.
  intros Hn Hr. destruct (List.in_split _ _ Hr) as (l1 & l2 & ->).
  exists l1, l2. split; [reflexivity|].
  rewrite List.map_app in Hn. cbn [map] in Hn.
  apply NoDup_ListNoDup, List.NoDup_remove_2 in Hn.
  rewrite List.in_app_iff in Hn. tauto.
Qed.

(** The one row with the key is adjusted in place and returned. *)
Lemma update_inventory_found now s delta d r :
  unique_skus d -> In r (products d) -> col_sku r = Text.upper s ->
  exists l1 l2,
    products d = l1 ++ r :: l2
    /\ ~ In (col_sku r) (map col_sku l1) /\ ~ In (col_sku r) (map col_sku l2)
    /\ update_inventory now s delta d
       = (mkDatabase (l1 ++ adjust delta now r :: l2) (autoinc d),
          Some (_row_to_product (adjust delta now r))).
Proof.
  intros Hu Hr Hk. destruct (unique_split _ _ Hu Hr) as (l1 & l2 & Ht & H1 & H2).
  exists l1, l2. repeat split; try easy.
  unfold update_inventory. rewrite Ht, <- Hk.
  destruct (update_rows_present (col_sku r) delta now l1 r l2 H1 H2 eq_refl)
    as [E F].
  cbv zeta in E, F. now rewrite F, E.
Qed.

Lemma add_product_fresh created updated s name0 category0 (price0 cost0 : real)
    inventory0 unit0 description0 d :
  ~ In (Text.upper s) (skus d) ->
  exists row p,
    add_product created updated s name0 category0 price0 cost0 inventory0
      unit0 description0 d
    = (mkDatabase (products d ++ [row]) (col_id row), Ok p)
    /\ p = _row_to_product row
    /\ col_sku row = Text.upper s
    /\ col_id row = Z.max (autoinc d) (max_rowid (products d)) + 1
    /\ col_name row = name0 /\ col_category row = category0
    /\ col_price row = price0 /\ col_cost row = cost0
    /\ col_inventory row = inventory0 /\ col_unit row = unit0
    /\ col_description row = description0 /\ col_active row = true
    /\ col_created_at row = created /\ col_updated_at row = updated.
Proof.
  intros Hk. unfold add_product. cbn [sku].
  destruct (existsb (has_sku (Text.upper s)) (products d)) eqn:E.
  { apply existsb_has_sku in E. contradiction. }
  exists (mkRow (Z.max (autoinc d) (max_rowid (products d)) + 1)
            (Text.upper s) name0 category0 price0 cost0 inventory0 unit0
            description0 true created updated).
  eexists. split; [reflexivity|]. cbn. now repeat split.
Qed.

Lemma add_product_refused created updated s name0 category0
    (price0 cost0 : real) inventory0 unit0 description0 d :
  In (Text.upper s) (skus d) ->
  add_product created updated s name0 category0 price0 cost0 inventory0
    unit0 description0 d
  = (d, Raise DuplicateSkuError).
Proof.
  intros Hk. unfold add_product. cbn [sku].
  apply existsb_has_sku in Hk. unfold skus in Hk. now rewrite Hk.
Qed.

(** Both invariants hold of the empty table and are kept by the two
    operations that write. *)
Lemma empty_db_invariants : unique_skus (@empty_db real) /\ normalized (@empty_db real).
Proof. split; [apply NoDup_nil_2|apply List.Forall_nil]. Qed.

Lemma add_product_invariants created updated s name0 category0
    (price0 cost0 : real) inventory0 unit0 description0 d :
  unique_skus d -> normalized d ->
  let d' := fst (add_product created updated s name0 category0 price0 cost0
                   inventory0 unit0 description0 d) in
  unique_skus d' /\ normalized d'.
Proof.
  intros Hu Hn. cbv zeta.
  destruct (List.in_dec String.string_dec (Text.upper s) (skus d)) as [Hk|Hk].
  - now rewrite add_product_refused.
  - destruct (add_product_fresh created updated s name0 category0 price0 cost0
                inventory0 unit0 description0 d Hk)
      as (row & p & -> & _ & Hs & _).
    unfold unique_skus, normalized, skus in *. cbn [fst products]. split.
    + rewrite List.map_app. cbn [map]. rewrite Hs.
      apply NoDup_ListNoDup, List.NoDup_app.
      * now apply NoDup_ListNoDup.
      * repeat constructor. easy.
      * intros x Hx [<-|[]]. contradiction.
    + apply List.Forall_app. split; [easy|].
      constructor; [|constructor]. rewrite Hs. apply upper_idem.
Qed.

Lemma update_inventory_invariants now s delta d :
  unique_skus d -> normalized d ->
  let d' := fst (update_inventory now s delta d) in
  unique_skus d' /\ normalized d'.
Proof.
  intros Hu Hn. cbv zeta. unfold unique_skus, normalized, skus in *.
  unfold update_inventory. cbn [fst products]. split.
  - now rewrite update_rows_skus.
  - rewrite List.Forall_map. eapply List.Forall_impl; [|exact Hn].
    intros r Hr. cbn beta. now destruct (has_sku _ r).
Qed.

(** In a catalog built by the methods alone the skus are distinct and in
    upper case. *)
Lemma reachable_invariants d : reachable d -> unique_skus d /\ normalized d.
Proof.
  induction 1 as [|? ? ? ? ? ? ? ? ? ? d _ [Hu Hn]|? ? ? d _ [Hu Hn]].
  - apply empty_db_invariants.
  - now apply add_product_invariants.
  - now apply update_inventory_invariants.
Qed.

(** No method clears the [active] flag. *)
Lemma reachable_active d :
  reachable d -> Forall (fun r => col_active r = true) (products d).
Proof.
  induction 1 as [|cr up s n c p co i u de d _ IH|now s delta d _ IH].
  - constructor.
  - destruct (List.in_dec String.string_dec (Text.upper s) (skus d)) as [Hk|Hk].
    + now rewrite add_product_refused.
    + destruct (add_product_fresh cr up s n c p co i u de d Hk)
        as (row & q & -> & _ & _ & _ & _ & _ & _ & _ & _ & _ & _ & Ha & _).
      cbn [fst products]. apply List.Forall_app. split; [easy|].
      now repeat constructor.
  - unfold update_inventory. cbn [fst products]. rewrite List.Forall_map.
    eapply List.Forall_impl; [|exact IH].
    intros r Hr. cbn beta. now destruct (has_sku _ r).
Qed.

End StoreFacts.

(** * The methods within the limits of the machine *)

Section Within.
Context `{Unicode}.
Implicit Types (d : Database float) (r : Row float).

Lemma fits_int64_iff (z : Z) :
  Sqlite.fits_int64 z = true <-> Sqlite.INT64_MIN <= z <= Sqlite.INT64_MAX.
Proof. unfold Sqlite.fits_int64. rewrite andb_true_iff, !Z.leb_le. tauto. Qed.

(** Within the limits [add_product] is the statement on the upper-cased
    sku. *)
Lemma add_product_within created updated s name0 category0 price0 cost0
    inventory0 unit0 description0 d :
  Sqlite.fits_int64 inventory0 = true ->
  Sqlite.last_rowid d < Sqlite.INT64_MAX ->
  PrimFloat.is_nan price0 = false ->
  ProductCatalog.add_product created updated s name0 category0 price0 cost0
    inventory0 unit0 description0 d
  = add_product created updated (str_upper s) name0 category0 price0 cost0
      inventory0 unit0 description0 d.
Proof.
  intros Hi Hl Hp. unfold ProductCatalog.add_product, add_product.
  cbn [sku name category price cost inventory unit_ description active
       created_at updated_at].
  rewrite Hi, Hp, str_upper_no_lower. cbn [negb].
  destruct (Z.leb_spec Sqlite.INT64_MAX (Sqlite.last_rowid d)); [lia|].
  reflexivity.
Qed.

(** Outside them it raises and leaves the table as it was. *)
Lemma add_product_beyond created updated s name0 category0 price0 cost0
    inventory0 unit0 description0 d :
  Sqlite.fits_int64 inventory0 = false
  \/ Sqlite.INT64_MAX <= Sqlite.last_rowid d
  \/ PrimFloat.is_nan price0 = true ->
  ProductCatalog.add_product created updated s name0 category0 price0 cost0
    inventory0 unit0 description0 d
  = (d, Raise (if negb (Sqlite.fits_int64 inventory0)
               then Sqlite.int_too_large
               else if Sqlite.INT64_MAX <=? Sqlite.last_rowid d
                    then Sqlite.database_full
                    else Sqlite.price_is_null)).
Proof.
  intros Hb. unfold ProductCatalog.add_product.
  cbn [sku name category price cost inventory unit_ description active
       created_at updated_at].
  destruct (Sqlite.fits_int64 inventory0); cbn [negb]; [|reflexivity].
  destruct (Z.leb_spec Sqlite.INT64_MAX (Sqlite.last_rowid d));
    [reflexivity|].
  destruct (PrimFloat.is_nan price0); [reflexivity|].
  destruct Hb as [Hb|[Hb|Hb]]; [discriminate|lia|discriminate].
Qed.

Lemma add_product_stored created updated s name0 category0 price0 cost0
    inventory0 unit0 description0 d :
  In (str_upper s) (skus d) ->
  ProductCatalog.add_product created updated s name0 category0 price0 cost0
    inventory0 unit0 description0 d
  = (d, Raise (if negb (Sqlite.fits_int64 inventory0)
               then Sqlite.int_too_large
               else if Sqlite.INT64_MAX <=? Sqlite.last_rowid d
                    then Sqlite.database_full
                    else if PrimFloat.is_nan price0
                         then Sqlite.price_is_null
                         else DuplicateSkuError)).
Proof.
  intros Hk. destruct (Sqlite.fits_int64 inventory0) eqn:Hi.
  2: { rewrite add_product_beyond by auto. now rewrite Hi. }
  destruct (Z.leb_spec Sqlite.INT64_MAX (Sqlite.last_rowid d)) as [Hl|Hl].
  { rewrite add_product_beyond by auto. rewrite Hi. cbn [negb].
    destruct (Z.leb_spec Sqlite.INT64_MAX (Sqlite.last_rowid d)); [easy|lia]. }
  destruct (PrimFloat.is_nan price0) eqn:Hp.
  { rewrite add_product_beyond by auto. rewrite Hi. cbn [negb].
    destruct (Z.leb_spec Sqlite.INT64_MAX (Sqlite.last_rowid d)); [lia|easy]. }
  rewrite add_product_within by assumption. cbn [negb].
  apply add_product_refused. now rewrite str_upper_no_lower.
Qed.

Lemma add_product_new created updated s name0 category0 price0 cost0
    inventory0 unit0 description0 d :
  Sqlite.fits_int64 inventory0 = true ->
  Sqlite.last_rowid d < Sqlite.INT64_MAX ->
  PrimFloat.is_nan price0 = false ->
  ~ In (str_upper s) (skus d) ->
  ProductCatalog.add_product created updated s name0 category0 price0 cost0
    inventory0 unit0 description0 d
  = (mkDatabase
       (products d
        ++ [mkRow (Sqlite.last_rowid d + 1) (str_upper s) name0 category0
              price0 cost0 inventory0 unit0 description0 true created
              updated])
       (Sqlite.last_rowid d + 1),
     Ok (mkProduct (str_upper s) name0 category0 price0 cost0 inventory0
           unit0 description0 true (Some (Sqlite.last_rowid d + 1)) created
           updated)).
Proof.
  intros Hi Hl Hp Hk. unfold ProductCatalog.add_product.
  cbn [sku name category price cost inventory unit_ description active
       created_at updated_at].
  rewrite Hi, Hp. cbn [negb].
  destruct (Z.leb_spec Sqlite.INT64_MAX (Sqlite.last_rowid d)); [lia|].
  destruct (existsb (has_sku (str_upper s)) (products d)) eqn:E;
    [|reflexivity].
  apply existsb_has_sku in E. contradiction.
Qed.

(** [add_product] stores a product exactly when the inventory fits 64
    bits, an id is left, the price is a number and the sku is new. *)
Lemma add_product_cases created updated s name0 category0 price0 cost0
    inventory0 unit0 description0 d :
  let out := ProductCatalog.add_product created updated s name0 category0
               price0 cost0 inventory0 unit0 description0 d in
  (Sqlite.fits_int64 inventory0 = true
   /\ Sqlite.last_rowid d < Sqlite.INT64_MAX
   /\ PrimFloat.is_nan price0 = false
   /\ ~ In (str_upper s) (skus d)
   /\ out
      = (mkDatabase
           (products d
            ++ [mkRow (Sqlite.last_rowid d + 1) (str_upper s) name0
                  category0 price0 cost0 inventory0 unit0 description0 true
                  created updated])
           (Sqlite.last_rowid d + 1),
         Ok (mkProduct (str_upper s) name0 category0 price0 cost0
               inventory0 unit0 description0 true
               (Some (Sqlite.last_rowid d + 1)) created updated)))
  \/ (~ (Sqlite.fits_int64 inventory0 = true
         /\ Sqlite.last_rowid d < Sqlite.INT64_MAX
         /\ PrimFloat.is_nan price0 = false
         /\ ~ In (str_upper s) (skus d))
      /\ exists e, out = (d, Raise e)).
Proof.
  cbv zeta.
  destruct (List.in_dec String.string_dec (str_upper s) (skus d)) as [Hk|Hk].
  { right. split; [tauto|]. rewrite add_product_stored by exact Hk. eauto. }
  destruct (Sqlite.fits_int64 inventory0) eqn:Hi.
  2: { right. split; [intros (? & _); discriminate|].
       rewrite add_product_beyond by auto. eauto. }
  destruct (Z.leb_spec Sqlite.INT64_MAX (Sqlite.last_rowid d)) as [Hl|Hl].
  { right. split; [intros (_ & ? & _); lia|].
    rewrite add_product_beyond by auto. eauto. }
  destruct (PrimFloat.is_nan price0) eqn:Hp.
  { right. split; [intros (_ & _ & ? & _); discriminate|].
    rewrite add_product_beyond by auto. eauto. }
  left. split; [reflexivity|]. split; [exact Hl|]. split; [reflexivity|].
  split; [exact Hk|]. now apply add_product_new.
Qed.

Lemma find_overflow key delta (l1 : list (Row float)) r l2 :
  ~ In key (map col_sku l1) -> col_sku r = key ->
  ProductCatalog.overflows delta r = true ->
  List.find (fun x => has_sku key x && ProductCatalog.overflows delta x)
    (l1 ++ r :: l2) = Some r.
Proof.
  intros H1 Hr Ho. induction l1 as [|x l1 IH]; cbn [app List.find].
  - apply has_sku_true in Hr. now rewrite Hr, Ho.
  - assert (Hx : has_sku key x = false).
    { apply has_sku_false. intros E. apply H1. now left. }
    rewrite Hx. cbn [andb]. apply IH. intros E. apply H1. now right.
Qed.

Lemma find_no_overflow key delta (t : list (Row float)) :
  (forall r, In r t -> col_sku r = key ->
             col_inventory r + delta <= Sqlite.INT64_MAX) ->
  List.find (fun x => has_sku key x && ProductCatalog.overflows delta x) t
  = None.
Proof.
  intros Ht. induction t as [|x t IH]; [reflexivity|]. cbn [List.find].
  destruct (has_sku key x) eqn:Hx; cbn [andb].
  - apply has_sku_true in Hx. unfold ProductCatalog.overflows.
    pose proof (Ht x (or_introl eq_refl) Hx).
    destruct (Z.ltb_spec Sqlite.INT64_MAX (col_inventory x + delta)); [lia|].
    apply IH. intros r Hr. apply Ht. now right.
  - apply IH. intros r Hr. apply Ht. now right.
Qed.

(** Within the limits [update_inventory] is the statement on the
    upper-cased sku. *)
Lemma update_inventory_within now s delta d :
  Sqlite.fits_int64 delta = true ->
  (forall r, In r (products d) -> col_sku r = str_upper s ->
             col_inventory r + delta <= Sqlite.INT64_MAX) ->
  ProductCatalog.update_inventory now s delta d
  = ProductCatalog.Returned
      (fst (update_inventory now (str_upper s) delta d))
      (snd (update_inventory now (str_upper s) delta d)).
Proof.
  intros Hd Ho. unfold ProductCatalog.update_inventory, update_inventory.
  rewrite Hd, str_upper_no_lower. cbn [negb fst snd].
  now rewrite (find_no_overflow _ _ _ Ho).
Qed.

Lemma update_inventory_beyond now s delta d :
  Sqlite.fits_int64 delta = false ->
  ProductCatalog.update_inventory now s delta d
  = ProductCatalog.Raised Sqlite.int_too_large.
Proof.
  intros Hd. unfold ProductCatalog.update_inventory. now rewrite Hd.
Qed.

Lemma update_inventory_real now s delta d r :
  unique_skus d -> In r (products d) -> col_sku r = str_upper s ->
  Sqlite.fits_int64 delta = true ->
  Sqlite.INT64_MAX < col_inventory r + delta ->
  ProductCatalog.update_inventory now s delta d
  = ProductCatalog.StoredReal
      (PrimFloat.add (Binary64.of_Z (col_inventory r)) (Binary64.of_Z delta)).
Proof.
  intros Hu Hr Hk Hd Ho. unfold ProductCatalog.update_inventory.
  rewrite Hd. cbn [negb].
  destruct (unique_split _ _ Hu Hr) as (l1 & l2 & -> & H1 & _).
  rewrite (find_overflow (str_upper s) delta l1 r l2); [reflexivity| |exact Hk|].
  - now rewrite <- Hk.
  - unfold ProductCatalog.overflows. now apply Z.ltb_lt.
Qed.

Lemma list_products_within category0 active_only limit d :
  Sqlite.fits_int64 limit = true ->
  ProductCatalog.list_products category0 active_only limit d
  = Ok (list_products category0 active_only limit d).
Proof. intros Hl. unfold ProductCatalog.list_products. now rewrite Hl. Qed.

Lemma contains_pattern_length (query : string) :
  String.length (Text.contains_pattern query) = S (S (String.length query)).
Proof.
  unfold Text.contains_pattern. cbn [String.length]. f_equal.
  induction query as [|c q IH]; [reflexivity|].
  rewrite app_cons. cbn [String.length]. now rewrite IH.
Qed.

Lemma search_within query d :
  Z.of_nat (String.length query) <= 49998 ->
  ProductCatalog.search query d = Ok (search query d).
Proof.
  intros Hq. unfold ProductCatalog.search, search.
  rewrite contains_pattern_length.
  destruct (products d) as [|x t]; [reflexivity|].
  destruct (Z.ltb_spec Sqlite.MAX_LIKE_PATTERN_LENGTH
              (Z.of_nat (S (S (String.length query)))));
    [|reflexivity].
  unfold Sqlite.MAX_LIKE_PATTERN_LENGTH in *. lia.
Qed.


End Within.

(** * Adding and adjusting *)

Section StoreClaims.
Context `{Unicode}.
Implicit Types (d : Database float) (r : Row float).

(** C1, amended: [add_product] with a sku whose upper-case form is already
    stored raises and leaves the table as it was.  The error is that of the
    UNIQUE constraint (the spec's DuplicateSkuError) when the inventory fits
    64 bits, an id is left and the price is a number; it is OverflowError
    when the inventory does not fit, "database or disk is full" when no id
    is left, and that of NOT NULL when the price is NaN.  Every spelling
    with the same upper-case form does the same. *)
Theorem add_product_duplicate created updated s name0 category0
    price0 cost0 inventory0 unit0 description0 d :
  In (str_upper s) (skus d) ->
  let out := ProductCatalog.add_product created updated s name0 category0
               price0 cost0 inventory0 unit0 description0 d in
  fst out = d
  /\ snd out
     = Raise (if negb (Sqlite.fits_int64 inventory0)
              then Sqlite.int_too_large
              else if Sqlite.INT64_MAX <=? Sqlite.last_rowid d
                   then Sqlite.database_full
                   else if PrimFloat.is_nan price0 then Sqlite.price_is_null
                        else DuplicateSkuError)
  /\ (Sqlite.fits_int64 inventory0 = true ->
      Sqlite.last_rowid d < Sqlite.INT64_MAX ->
      PrimFloat.is_nan price0 = false ->
      snd out = Raise DuplicateSkuError)
  /\ forall s', str_upper s' = str_upper s ->
       ProductCatalog.add_product created updated s' name0 category0 price0
         cost0 inventory0 unit0 description0 d
       = out.
Proof.
  intros Hk. cbv zeta.
  pose proof (add_product_stored created updated s name0 category0 price0
                cost0 inventory0 unit0 description0 d Hk) as E.
  rewrite E. cbn [fst snd]. split; [reflexivity|]. split; [reflexivity|].
  split.
  - intros -> Hl ->. cbn [negb].
    destruct (Z.leb_spec Sqlite.INT64_MAX (Sqlite.last_rowid d)); [lia|easy].
  - intros s' Hs. rewrite <- E. unfold ProductCatalog.add_product.
    now rewrite Hs.
Qed.


(** C3, amended: for a sku whose upper-case form is not stored and a
    [delta] of 64 bits, [update_inventory] returns [None] and the table is
    the one it was given; a [delta] beyond 64 bits raises OverflowError. *)
Theorem update_inventory_unknown now s delta d :
  ~ In (str_upper s) (skus d) ->
  ProductCatalog.update_inventory now s delta d
  = if Sqlite.fits_int64 delta then ProductCatalog.Returned d None
    else ProductCatalog.Raised Sqlite.int_too_large.
Proof.
  intros Hk. destruct (Sqlite.fits_int64 delta) eqn:Hd.
  - rewrite update_inventory_within; [|exact Hd|].
    + unfold update_inventory. rewrite str_upper_no_lower.
      destruct (update_rows_absent (str_upper s) delta now (products d) Hk)
        as [E F].
      cbn [fst snd]. now rewrite E, F, database_eta.
    + intros r Hr Hs. exfalso. apply Hk. rewrite <- Hs.
      now apply List.in_map.
  - now apply update_inventory_beyond.
Qed.

(** C10: [update_inventory] upper-cases the sku it is given: it does the
    same on [s] and on the upper-case form of [s]; and for a stored product
    whose sku is in upper case, as [add_product] writes it, every spelling
    of that sku reaches the product: its row is the one adjusted and
    returned, or the one whose inventory becomes a REAL. *)
Theorem update_inventory_any_case now s delta d :
  ProductCatalog.update_inventory now s delta d
  = ProductCatalog.update_inventory now (str_upper s) delta d
  /\ forall r,
       unique_skus d -> In r (products d) ->
       str_upper (col_sku r) = col_sku r ->
       str_upper s = str_upper (col_sku r) ->
       (Sqlite.fits_int64 delta = true ->
        col_inventory r + delta <= Sqlite.INT64_MAX ->
        exists l1 l2,
          products d = l1 ++ r :: l2
          /\ ProductCatalog.update_inventory now s delta d
             = ProductCatalog.Returned
                 (mkDatabase (l1 ++ adjust delta now r :: l2) (autoinc d))
                 (Some (_row_to_product (adjust delta now r))))
       /\ (Sqlite.fits_int64 delta = true ->
           Sqlite.INT64_MAX < col_inventory r + delta ->
           ProductCatalog.update_inventory now s delta d
           = ProductCatalog.StoredReal
               (PrimFloat.add (Binary64.of_Z (col_inventory r))
                  (Binary64.of_Z delta))).
Proof.
  split.
  - unfold ProductCatalog.update_inventory. now rewrite str_upper_idempotent.
  - intros r Hu Hr Hn Hs.
    assert (Hk : col_sku r = str_upper s) by congruence.
    split.
    + intros Hd Ho.
      assert (Hk' : col_sku r = Text.upper (str_upper s))
        by now rewrite str_upper_no_lower.
      destruct (update_inventory_found now (str_upper s) delta d r Hu Hr Hk')
        as (l1 & l2 & Ht & H1 & H2 & E).
      exists l1, l2. split; [exact Ht|].
      rewrite update_inventory_within, E; [reflexivity|exact Hd|].
      intros x Hx Hx'. rewrite Ht in Hx.
      apply List.in_app_iff in Hx as [Hx|[<-|Hx]]; [|exact Ho|].
      * exfalso. apply H1. rewrite Hk, <- Hx'. now apply List.in_map.
      * exfalso. apply H2. rewrite Hk, <- Hx'. now apply List.in_map.
    + intros Hd Ho. now apply update_inventory_real.
Qed.

End StoreClaims.

Section FrameClaim.
Context {real : Type}.
Implicit Types (d : Database real) (r : Row real).

(** C8: adjusting a stored sku rewrites that one row in place, changing
    only [inventory] and [updated_at]; the rows before and after it and the
    AUTOINCREMENT counter are the same. *)
Theorem update_inventory_frame now s delta d r :
  unique_skus d -> In r (products d) -> col_sku r = Text.upper s ->
  exists l1 l2 r',
    products d = l1 ++ r :: l2
    /\ products (fst (update_inventory now s delta d)) = l1 ++ r' :: l2
    /\ same_but_inventory r r'
    /\ autoinc (fst (update_inventory now s delta d)) = autoinc d.
Proof.
  intros Hu Hr Hk.
  destruct (update_inventory_found now s delta d r Hu Hr Hk)
    as (l1 & l2 & Ht & _ & _ & ->).
  exists l1, l2, (adjust delta now r). cbn [fst products autoinc].
  repeat split; try easy.
Qed.

End FrameClaim.

(** * Orders used by ORDER BY *)

Section Orders.
Context {real : Type}.

#[export] Instance by_name_total : Total (@by_name real).
Proof. intros r1 r2. unfold by_name. apply (base.total String.le). Qed.

#[export] Instance by_name_trans : Transitive (@by_name real).
Proof. intros r1 r2 r3. unfold by_name. apply transitivity. Qed.

#[export] Instance by_category_name_total : Total (@by_category_name real).
Proof.
  intros r1 r2. unfold by_category_name, strict.
  destruct (decide (String.le (col_category r1) (col_category r2))) as [H12|H12];
    destruct (decide (String.le (col_category r2) (col_category r1))) as [H21|H21].
  - assert (E : col_category r1 = col_category r2)
      by now apply (anti_symm String.le).
    destruct (base.total String.le (col_name r1) (col_name r2)); auto.
  - auto.
  - auto.
  - destruct (base.total String.le (col_category r1) (col_category r2)); tauto.
Qed.

#[export] Instance by_category_name_trans : Transitive (@by_category_name real).
Proof.
  intros r1 r2 r3. unfold by_category_name, strict.
  intros [[H12 N12]|[E12 L12]] [[H23 N23]|[E23 L23]].
  - left. split; [now transitivity (col_category r2)|].
    intros H31. apply N12. now transitivity (col_category r3).
  - left. rewrite <- E23. auto.
  - left. rewrite E12. auto.
  - right. split; [congruence|]. now transitivity (col_name r2).
Qed.

End Orders.

(** * Listing and searching *)

Section QueryFacts.
Context {real : Type}.
Implicit Types (d : Database real) (r : Row real) (t : list (Row real)).

Lemma filter_twice {A : Type} (f g : A -> bool) (l : list A) :
  List.filter g (List.filter f l) = List.filter (fun x => f x && g x) l.
Proof.
  induction l as [|x l IH]; [reflexivity|].
  cbn [List.filter]. destruct (f x); cbn [List.filter andb]; now rewrite IH.
Qed.

Lemma filter_all {A : Type} (f : A -> bool) (l : list A) :
  (forall x, f x = true) -> List.filter f l = l.
Proof.
  intros Hf. induction l as [|x l IH]; [reflexivity|].
  cbn [List.filter]. now rewrite Hf, IH.
Qed.

Lemma is_empty_true (s : string) : Text.is_empty s = true <-> s = EmptyString.
Proof. destruct s; split; easy. Qed.

Lemma listed_iff category0 active_only r :
  listed category0 active_only r = true
  <-> (active_only = true -> col_active r = true)
      /\ forall c, category0 = Some c -> c <> EmptyString ->
                   col_category r = c.
Proof.
  unfold listed. rewrite andb_true_iff, orb_true_iff, negb_true_iff. split.
  - intros [Ha Hc]. split.
    + intros ->. now destruct Ha.
    + intros c -> Hne. apply orb_true_iff in Hc as [Hc|Hc].
      * now apply is_empty_true in Hc.
      * now apply String.eqb_eq.
  - intros [Ha Hc]. split.
    + destruct active_only; [right; now apply Ha|now left].
    + destruct category0 as [c|]; [|reflexivity]. apply orb_true_iff.
      destruct (Text.is_empty c) eqn:E; [now left|right].
      apply String.eqb_eq, Hc; [reflexivity|].
      intros ->. discriminate.
Qed.

Lemma list_rows_selected category0 active_only limit d :
  list_rows category0 active_only limit d
  = sql_limit limit
      (merge_sort by_category_name
         (List.filter (listed category0 active_only) (products d))).
Proof.
  unfold list_rows, sql_where, listed. do 2 f_equal.
  destruct active_only, category0 as [c|]; cbn [negb orb];
    try destruct (Text.is_empty c); cbn [orb].
  all: rewrite ?filter_twice.
  all: try (apply List.filter_ext; intros x; now rewrite ?andb_true_r).
  all: symmetry; now apply filter_all.
Qed.

End QueryFacts.

Section QueryClaims.
Context {real : Type}.
Implicit Types (d : Database real) (r : Row real) (p : Product real).

(** C9, amended: the status is OUT_OF_STOCK exactly when the inventory is at
    most 0 (for an inventory that is not negative: exactly when it is 0),
    LOW_STOCK exactly when it is between 1 and 9, IN_STOCK exactly when it is
    at least 10. *)
Theorem inventory_status_cases p :
  (inventory_status p = OUT_OF_STOCK <-> inventory p <= 0)
  /\ (inventory_status p = LOW_STOCK <-> 0 < inventory p < 10)
  /\ (inventory_status p = IN_STOCK <-> 10 <= inventory p)
  /\ (0 <= inventory p ->
      (inventory_status p = OUT_OF_STOCK <-> inventory p = 0)).
Proof.
  unfold inventory_status.
  destruct (Z.leb_spec (inventory p) 0), (Z.ltb_spec (inventory p) 10);
    repeat split; intros; try discriminate; try lia; reflexivity.
Qed.

End QueryClaims.

Section MethodQueries.
Implicit Types (d : Database float) (r : Row float).

(** C7, amended: [list_products] returns the rows that are active (when
    [active_only]) and whose category equals the given one (when a non-empty
    category is given; the empty category selects nothing out), in
    (category, name) order, cut to the first [limit] rows when [limit] is
    not negative and uncut otherwise; with no such row it returns the empty
    list.  A [limit] beyond 64 bits raises OverflowError. *)
Theorem list_products_spec category0 active_only limit d :
  (Sqlite.fits_int64 limit = false ->
   ProductCatalog.list_products category0 active_only limit d
   = Raise Sqlite.int_too_large)
  /\ (Sqlite.fits_int64 limit = true ->
      exists sorted,
        Permutation sorted
          (List.filter (listed category0 active_only) (products d))
        /\ StronglySorted by_category_name sorted
        /\ ProductCatalog.list_products category0 active_only limit d
           = Ok (map _row_to_product
                   (if limit <? 0 then sorted
                    else firstn (Z.to_nat limit) sorted))
        /\ (forall r, listed category0 active_only r = true
              <-> (active_only = true -> col_active r = true)
                  /\ forall c, category0 = Some c -> c <> EmptyString ->
                               col_category r = c)
        /\ (0 <= limit ->
            forall listing,
              ProductCatalog.list_products category0 active_only limit d
              = Ok listing ->
              Z.of_nat (length listing) <= limit)
        /\ (List.filter (listed category0 active_only) (products d) = [] ->
            ProductCatalog.list_products category0 active_only limit d
            = Ok [])).
Proof.
  split.
  { intros Hl. unfold ProductCatalog.list_products. now rewrite Hl. }
  intros Hl.
  exists (merge_sort by_category_name
            (List.filter (listed category0 active_only) (products d))).
  rewrite list_products_within by exact Hl.
  unfold list_products. rewrite list_rows_selected. unfold sql_limit.
  split; [apply merge_sort_Permutation|].
  split; [apply StronglySorted_merge_sort; apply _|].
  split; [reflexivity|].
  split; [intros r; apply listed_iff|].
  split.
  - intros Hn listing [= <-]. destruct (Z.ltb_spec limit 0) as [|_]; [lia|].
    rewrite List.length_map.
    pose proof (List.firstn_le_length (Z.to_nat limit)
                  (merge_sort by_category_name
                     (List.filter (listed category0 active_only) (products d)))).
    lia.
  - intros ->. now destruct (limit <? 0), (Z.to_nat limit).
Qed.





End MethodQueries.

(** * Export and statistics *)

Section ReportFacts.
Context {real : Type} `{FloatOps real}.
Implicit Types (d : Database real) (r : Row real) (t : list (Row real)).

Lemma listed_all r : listed None false r = true.
Proof. reflexivity. Qed.

Lemma export_products_eq d :
  export_products d
  = map _row_to_product
      (firstn (Z.to_nat export_limit)
         (merge_sort by_category_name (products d))).
Proof.
  unfold export_products, list_products. rewrite list_rows_selected.
  unfold sql_limit. change (export_limit <? 0) with false. cbv iota.
  now rewrite (filter_all _ _ listed_all).
Qed.

Lemma export_products_length d :
  length (export_products d)
  = Nat.min (Z.to_nat export_limit) (length (products d)).
Proof.
  rewrite export_products_eq, List.length_map, List.length_firstn.
  now rewrite (Permutation_length (merge_sort_Permutation _ (products d))).
Qed.

Lemma count_filter (f : Row real -> bool) (P : Row real -> Prop)
    `{!forall r, Decision (P r)} t :
  (forall r, f r = true <-> P r) -> sql_count f t = count_rows P t.
Proof.
  intros Hf. unfold sql_count, count_rows, sql_where. f_equal.
  induction t as [|x t IH]; [reflexivity|].
  cbn [List.filter]. rewrite filter_cons.
  destruct (f x) eqn:E, (decide (P x)) as [Hp|Hp]; cbn [length];
    try (now rewrite IH).
  - exfalso. now apply Hp, Hf.
  - apply Hf in Hp. congruence.
Qed.

Lemma filter_none {A : Type} (f : A -> bool) (l : list A) :
  length (List.filter f l) = O <-> forall x, In x l -> f x = false.
Proof.
  induction l as [|x l IH]; [easy|]. cbn [List.filter].
  destruct (f x) eqn:E; cbn [length].
  - split; [discriminate|]. intros Hx.
    rewrite (Hx x) in E by now left. discriminate.
  - rewrite IH. split.
    + intros Hl y [<-|Hy]; auto.
    + intros Hl y Hy. apply Hl. now right.
Qed.

Lemma dict_of_lookup (f : string -> Z) (ks : list string)
    (m0 : gmap string Z) (c : string) :
  fold_left (fun m kv => <[kv.1 := kv.2]> m) (map (fun k => (k, f k)) ks) m0
    !! c
  = if decide (c ∈ ks) then Some (f c) else m0 !! c.
Proof.
  revert m0. induction ks as [|k ks IH]; intros m0; cbn [map fold_left].
  - rewrite decide_False; [reflexivity|]. apply not_elem_of_nil.
  - rewrite IH. cbn [fst snd].
    destruct (decide (c ∈ ks)) as [Hc|Hc].
    + rewrite decide_True; [reflexivity|]. now apply elem_of_cons; right.
    + destruct (decide (c = k)) as [->|Hk].
      * rewrite lookup_insert_eq, decide_True; [reflexivity|].
        apply elem_of_cons. now left.
      * rewrite lookup_insert_ne by congruence.
        rewrite decide_False; [reflexivity|].
        intros [?|?]%elem_of_cons; contradiction.
Qed.

Lemma group_count_lookup t (c : string) :
  dict_of (sql_group_count t) !! c
  = let n := sql_count (fun r => String.eqb (col_category r) c) t in
    if decide (n = 0) then None else Some n.
Proof.
  unfold dict_of, sql_group_count.
  rewrite (dict_of_lookup
             (fun k => sql_count (fun r => String.eqb (col_category r) k) t)).
  rewrite lookup_empty. cbv zeta.
  set (n := sql_count _ t).
  assert (Hn : n = 0 <-> ~ In c (map col_category t)).
  { unfold n, sql_count, sql_where.
    rewrite <- Nat2Z.inj_0, Nat2Z.inj_iff, filter_none, List.in_map_iff.
    split.
    - intros Hf (r & Hr & Hin). apply Hf in Hin.
      apply String.eqb_neq in Hin. contradiction.
    - intros Hf r Hin. apply String.eqb_neq. intros E. apply Hf. now exists r. }
  assert (Hk : c ∈ merge_sort String.le (remove_dups (map col_category t))
               <-> In c (map col_category t)).
  { rewrite (merge_sort_Permutation String.le), elem_of_remove_dups.
    apply list_elem_of_In. }
  destruct (decide (c ∈ _)) as [Hc|Hc], (decide (n = 0)) as [Hz|Hz];
    try reflexivity.
  - apply Hk in Hc. apply Hn in Hz. contradiction.
  - exfalso. apply Hc, Hk. destruct (List.in_dec String.string_dec c
                                       (map col_category t)); [easy|].
    exfalso. now apply Hz, Hn.
Qed.

Lemma count_rows_cons (P : Row real -> Prop) `{!forall r, Decision (P r)}
    (x : Row real) (t : list (Row real)) :
  count_rows P (x :: t) = (if decide (P x) then 1 else 0) + count_rows P t.
Proof.
  unfold count_rows. rewrite filter_cons.
  destruct (decide (P x)); cbn [length]; lia.
Qed.

(** [in_stock] counts the active products that are neither out of stock nor
    low: those with at least 10, and those entered with a negative count. *)
Lemma in_stock_counts (d : Database real) :
  in_stock (get_catalog_stats d)
  = count_rows (fun r => col_active r = true
                         /\ (col_inventory r < 0 \/ 10 <= col_inventory r))
      (products d).
Proof.
  unfold get_catalog_stats. cbn [in_stock].
  rewrite (count_filter col_active (fun r => col_active r = true)) by easy.
  rewrite (count_filter _
             (fun r => col_active r = true /\ col_inventory r = 0)).
  2: { intros r. now rewrite andb_true_iff, Z.eqb_eq. }
  rewrite (count_filter _
             (fun r => col_active r = true /\ 0 < col_inventory r < 10)).
  2: { intros r. rewrite !andb_true_iff, !Z.ltb_lt. tauto. }
  induction (products d) as [|x t IH]; [reflexivity|].
  rewrite !count_rows_cons, <- IH.
  repeat case_decide; try lia; exfalso; intuition lia.
Qed.
End ReportFacts.

Section ReportClaims.
Context {real : Type} `{FloatOps real}.
Implicit Types (d : Database real) (r : Row real) (p : Product real).

(** The text of the export, whatever the float operations are. *)
Lemma csv_content_generic d :
  csv_content d
  = Csv.writerow csv_header
    +:+ Csv.writerows (map csv_record (export_products d))
  /\ Csv.writerow csv_header
     = "SKU,Name,Category,Price,Cost,Margin%,Inventory,Unit,Status,Active"
       +:+ Csv.lineterminator
  /\ (exists sorted,
        Permutation sorted (products d)
        /\ StronglySorted by_category_name sorted
        /\ export_products d
           = map _row_to_product (firstn (Z.to_nat 100000) sorted))
  /\ (Z.of_nat (length (products d)) <= 100000 ->
      Permutation (export_products d) (map _row_to_product (products d)))
  /\ (forall p,
        csv_record p !! 3%nat = Some (format_f 2 (price p))
        /\ csv_record p !! 4%nat = Some (format_f 2 (cost p))
        /\ csv_record p !! 5%nat = Some (format_f 1 (margin_pct p))
        /\ length (csv_record p) = length csv_header).
Proof.
  split; [reflexivity|].
  split; [vm_compute; reflexivity|].
  split.
  { exists (merge_sort by_category_name (products d)).
    split; [apply merge_sort_Permutation|].
    split; [apply StronglySorted_merge_sort; apply _|].
    apply export_products_eq. }
  split.
  { intros Hl. rewrite export_products_eq. apply Permutation_map.
    rewrite List.firstn_all2.
    - apply merge_sort_Permutation.
    - rewrite (Permutation_length (merge_sort_Permutation _ (products d))).
      unfold export_limit. lia. }
  intros p. now repeat split.
Qed.

End ReportClaims.

(** * Decimals of the binary64 format *)

Lemma prim2sf_finite (x : float) :
  PrimFloat.is_finite x = true ->
  (exists s, Prim2SF x = S754_zero s)
  \/ (exists s m e, Prim2SF x = S754_finite s m e).
Proof.
  unfold Prim2SF, PrimFloat.is_finite.
  destruct (PrimFloat.is_nan x); [discriminate|]. cbn [orb].
  destruct (PrimFloat.is_zero x); [left; eauto|].
  destruct (PrimFloat.is_infinity x); [discriminate|]. intros _.
  destruct (Z.frexp x) as [r e]. destruct (shr_fexp _ _ _ _ _) as [shr e'].
  destruct (shr_m shr); eauto.
Qed.

Lemma div_half_even_nonneg num den :
  0 <= num -> 0 < den -> 0 <= Binary64.div_half_even num den.
Proof.
  intros Hn Hd. unfold Binary64.div_half_even.
  pose proof (Z.div_pos num den Hn Hd).
  destruct (_ ?= _); [destruct (Z.even _)|..]; lia.
Qed.

Lemma scaled_nonneg m e d : 0 <= Binary64.scaled m e d.
Proof.
  unfold Binary64.scaled. apply div_half_even_nonneg.
  - destruct (0 <=? e), (0 <=? d); try lia.
    all: repeat apply Z.mul_nonneg_nonneg; try lia.
    all: apply Z.pow_nonneg; lia.
  - destruct (Z.leb_spec 0 e), (Z.leb_spec 0 d); try lia.
    all: repeat apply Z.mul_pos_pos; try lia.
    all: apply Z.pow_pos_nonneg; lia.
Qed.

Lemma digit_is_digit n :
  0 <= n < 10 -> Text.is_digit (Binary64.digit n) = true.
Proof.
  intros Hn. unfold Text.is_digit, Binary64.digit.
  rewrite N_ascii_embedding by lia.
  apply andb_true_iff. split; apply N.leb_le; lia.
Qed.

Lemma length_app_s (s t : string) :
  String.length (s +:+ t) = (String.length s + String.length t)%nat.
Proof. induction s as [|c s IH]; [reflexivity|]. rewrite app_cons. simpl. now rewrite IH. Qed.

Lemma all_chars_app p (s t : string) :
  Text.all_chars p (s +:+ t) = Text.all_chars p s && Text.all_chars p t.
Proof.
  induction s as [|c s IH]; [reflexivity|].
  rewrite app_cons. simpl. now rewrite IH, andb_assoc.
Qed.

Lemma digits_shape d n :
  String.length (Binary64.digits d n) = d
  /\ Text.all_chars Text.is_digit (Binary64.digits d n) = true.
Proof.
  revert n. induction d as [|d IH]; intros n; [easy|].
  cbn [Binary64.digits]. destruct (IH (n / 10)) as [Hl Ha].
  rewrite length_app_s, all_chars_app, Hl, Ha. split; [simpl; lia|].
  simpl. rewrite digit_is_digit; [reflexivity|]. apply Z.mod_pos_bound. lia.
Qed.

Lemma format_fixed_decimals (d : nat) (x : float) :
  PrimFloat.is_finite x = true ->
  Binary64.has_decimals (S d) (Binary64.format_fixed (S d) x).
Proof.
  intros Hx. unfold Binary64.has_decimals, Binary64.format_fixed.
  destruct (prim2sf_finite x Hx) as [(s & ->)|(s & m & e & ->)].
  - exists s, (0 / 10 ^ Z.of_nat (S d)), (Binary64.digits (S d) 0).
    split; [reflexivity|]. split; [now rewrite Z.div_0_l by lia|].
    apply digits_shape.
  - exists s, (Binary64.scaled m e (Z.of_nat (S d)) / 10 ^ Z.of_nat (S d)),
      (Binary64.digits (S d) (Binary64.scaled m e (Z.of_nat (S d)))).
    split; [reflexivity|]. split; [|apply digits_shape].
    apply Z.div_pos; [apply scaled_nonneg|]. apply Z.pow_pos_nonneg; lia.
Qed.

Lemma has_decimals_point (n : nat) (s : string) :
  Binary64.has_decimals n s -> Text.has_char (Ascii.eqb "."%char) s = true.
Proof.
  intros (negative & whole & decimals & -> & _).
  rewrite !has_char_app. cbn [Text.has_char]. rewrite Ascii.eqb_refl.
  cbn [orb]. now rewrite !orb_true_r.
Qed.

(** * Rounding to cents *)

Lemma div_half_even_nearest (num den : Z) :
  0 <= num -> 0 < den ->
  nearest_even num den (Binary64.div_half_even num den).
Proof.
  intros Hn Hd. unfold nearest_even, Binary64.div_half_even.
  pose proof (Z.div_mod num den ltac:(lia)) as E.
  pose proof (Z.mod_pos_bound num den Hd) as B.
  destruct (Z.compare_spec (2 * (num mod den)) den) as [C|C|C].
  - destruct (Z.even (num / den)) eqn:Ev.
    + split; [nia|]. intros _. exact Ev.
    + split; [nia|]. intros _.
      rewrite Z.add_1_r, Z.even_succ, <- Z.negb_even, Ev. reflexivity.
  - split; [nia|]. intros F. exfalso. nia.
  - split; [nia|]. intros F. exfalso. nia.
Qed.

(** [round(x, 2)] of a finite [x = m * 2^e] is the quotient, rounded once,
    of the integer nearest to [100 x] by 100. *)
Lemma round_nearest (x : float) (sg : bool) (m : positive) (e : Z) :
  Prim2SF x = S754_finite sg m e ->
  exists n,
    nearest_even (Zpos m * 2 ^ Z.max e 0 * 100) (2 ^ Z.max (- e) 0) n
    /\ 0 <= n
    /\ Binary64.round x 2
       = SF2Prim (SFdiv prec emax
                    match n with
                    | Zpos p => S754_finite sg p 0
                    | _ => S754_zero sg
                    end
                    (S754_finite false 100 0)).
Proof.
  intros Hx. exists (Binary64.scaled m e 2).
  assert (Hs : Binary64.scaled m e 2
               = Binary64.div_half_even (Zpos m * 2 ^ Z.max e 0 * 100)
                   (2 ^ Z.max (- e) 0)).
  { unfold Binary64.scaled. cbv zeta. change (0 <=? 2) with true. cbv iota.
    change (10 ^ 2) with 100. rewrite Z.mul_1_r.
    destruct (Z.leb_spec 0 e).
    - now rewrite Z.max_l, Z.max_r by lia.
    - rewrite Z.max_r, Z.max_l by lia. change (2 ^ 0) with 1. reflexivity. }
  split; [|split].
  - rewrite Hs. apply div_half_even_nearest.
    + assert (0 < 2 ^ Z.max e 0) by (apply Z.pow_pos_nonneg; lia). nia.
    + apply Z.pow_pos_nonneg; lia.
  - apply scaled_nonneg.
  - unfold Binary64.round. rewrite Hx. reflexivity.
Qed.

Lemma round_not_finite (x : float) :
  PrimFloat.is_finite x = false -> Binary64.round x 2 = x.
Proof.
  intros Hx. unfold Binary64.round.
  destruct (Prim2SF x) as [s|s| |s m e] eqn:E; try reflexivity.
  exfalso. revert Hx E. unfold PrimFloat.is_finite, Prim2SF.
  destruct (PrimFloat.is_nan x); [discriminate|]. cbn [orb negb].
  destruct (PrimFloat.is_zero x); [discriminate|].
  destruct (PrimFloat.is_infinity x); [discriminate|]. discriminate.
Qed.

Section StatsClaim.
Implicit Types (d : Database float) (r : Row float).

(** C6, amended: the statistics count the active products, those of them
    with no inventory and those with an inventory between 1 and 9;
    [in_stock] is the total less these two; each category is mapped to its
    number of active products.  The inventory value adds, in table order
    from 0.0, the products price times inventory of the active rows that
    are numbers (an infinite price with no inventory gives none and is left
    out); it is the number 0 when no such row exists and when the sum is
    zero or not a number, and otherwise the sum rounded to 2 decimals: the
    sum itself when that is infinite, else the integer nearest to 100 times
    the sum, divided by 100.  On the empty table the total is 0, the value
    is 0 and no category is present. *)
Theorem get_catalog_stats_spec d :
  let s := get_catalog_stats d in
  let sum := fold_left PrimFloat.add (value_terms d) 0%float in
  total s = count_rows (fun r => col_active r = true) (products d)
  /\ out_of_stock s
     = count_rows (fun r => col_active r = true /\ col_inventory r = 0)
         (products d)
  /\ low_stock s
     = count_rows (fun r => col_active r = true /\ 0 < col_inventory r < 10)
         (products d)
  /\ in_stock s = total s - out_of_stock s - low_stock s
  /\ inventory_value s
     = match value_terms d with
       | [] => Int 0
       | _ :: _ =>
           if PrimFloat.is_nan sum || PrimFloat.eqb sum 0 then Int 0
           else Float (Binary64.round sum 2)
       end
  /\ (forall sg m e,
        Prim2SF sum = S754_finite sg m e ->
        exists n,
          nearest_even (Zpos m * 2 ^ Z.max e 0 * 100) (2 ^ Z.max (- e) 0) n
          /\ 0 <= n
          /\ Binary64.round sum 2
             = SF2Prim (SFdiv prec emax
                          match n with
                          | Zpos p => S754_finite sg p 0
                          | _ => S754_zero sg
                          end
                          (S754_finite false 100 0)))
  /\ (PrimFloat.is_finite sum = false -> Binary64.round sum 2 = sum)
  /\ (forall c,
        categories s !! c
        = let n := count_rows
                     (fun r => col_active r = true /\ col_category r = c)
                     (products d) in
          if decide (n = 0) then None else Some n)
  /\ (products d = [] ->
      total s = 0 /\ inventory_value s = Int 0
      /\ to_float (inventory_value s) = of_int 0 /\ categories s = ∅).
Proof.
  cbv zeta. unfold get_catalog_stats.
  cbn [total out_of_stock low_stock in_stock inventory_value categories].
  split.
  { apply count_filter. intros r. reflexivity. }
  split.
  { apply count_filter. intros r.
    rewrite andb_true_iff, Z.eqb_eq. reflexivity. }
  split.
  { apply count_filter. intros r.
    rewrite !andb_true_iff, Z.ltb_lt, Z.ltb_lt. tauto. }
  split; [reflexivity|].
  split.
  { unfold sql_sum_value, or_zero, round_number, value_terms, sql_where.
    cbn [is_nan fmul of_int sql_sum truthy py_round Binary64.ops].
    destruct (List.filter _ (map _ _)) as [|x l]; [reflexivity|].
    unfold Binary64.sum.
    destruct (PrimFloat.is_nan _); [reflexivity|]. cbn [orb].
    now destruct (PrimFloat.eqb _ _). }
  split; [intros sg m e; apply round_nearest|].
  split; [apply round_not_finite|].
  split.
  { intros c. rewrite group_count_lookup. cbv zeta.
    replace (sql_count (fun r => String.eqb (col_category r) c)
               (sql_where col_active (products d)))
      with (count_rows (fun r => col_active r = true /\ col_category r = c)
              (products d)); [reflexivity|].
    symmetry. unfold sql_count at 1, sql_where. rewrite filter_twice.
    apply (count_filter _ (fun r => col_active r = true /\ col_category r = c)).
    intros r. now rewrite andb_true_iff, String.eqb_eq. }
  intros ->. now repeat split.
Qed.

End StatsClaim.

(** C4, amended: when one of the products to export has no cost (a NaN
    cost is stored as NULL), [export_csv] raises TypeError and writes
    nothing.  Otherwise the text starts with the header row; its other rows
    are the first 100000 products in (category, name) order, active or not,
    so every product appears exactly once when the table holds at most
    100000; a finite price or cost is printed with exactly two decimals and
    a finite margin with exactly one; the text is returned, and written to
    the path, replacing what was there, when a path is given. *)
Theorem export_csv_spec output_path (d : Database float)
    (files : gmap string string) :
  (existsb ProductCatalog.cost_is_none (export_products d) = true ->
   ProductCatalog.export_csv output_path d files
   = (files, Raise format_of_none))
  /\ (existsb ProductCatalog.cost_is_none (export_products d) = false ->
      ProductCatalog.export_csv output_path d files
      = (match output_path with
         | Some path => <[path := csv_content d]> files
         | None => files
         end, Ok (csv_content d)))
  /\ csv_content d
     = Csv.writerow csv_header
       +:+ Csv.writerows (map csv_record (export_products d))
  /\ Csv.writerow csv_header
     = "SKU,Name,Category,Price,Cost,Margin%,Inventory,Unit,Status,Active"
       +:+ Csv.lineterminator
  /\ (exists sorted,
        Permutation sorted (products d)
        /\ StronglySorted by_category_name sorted
        /\ export_products d
           = map _row_to_product (firstn (Z.to_nat 100000) sorted))
  /\ (Z.of_nat (length (products d)) <= 100000 ->
      Permutation (export_products d) (map _row_to_product (products d)))
  /\ (forall p : Product float,
        csv_record p !! 3%nat = Some (format_f 2 (price p))
        /\ csv_record p !! 4%nat = Some (format_f 2 (cost p))
        /\ csv_record p !! 5%nat = Some (format_f 1 (margin_pct p))
        /\ (PrimFloat.is_finite (price p) = true ->
            Binary64.has_decimals 2 (format_f 2 (price p)))
        /\ (PrimFloat.is_finite (cost p) = true ->
            Binary64.has_decimals 2 (format_f 2 (cost p)))
        /\ (PrimFloat.is_finite (margin_pct p) = true ->
            Binary64.has_decimals 1 (format_f 1 (margin_pct p)))).
Proof.
  destruct (csv_content_generic d) as (H1 & H2 & H3 & H4 & H5).
  assert (E : ProductCatalog.list_products None false export_limit d
              = Ok (export_products d)) by reflexivity.
  split; [|split].
  - intros Hn. unfold ProductCatalog.export_csv. now rewrite E, Hn.
  - intros Hn. unfold ProductCatalog.export_csv. rewrite E, Hn.
    now destruct output_path.
  - repeat (split; [assumption|]).
    intros p. destruct (H5 p) as (P3 & P4 & P5 & _).
    repeat (split; [assumption|]).
    repeat split; apply format_fixed_decimals.
Qed.

(** * Further properties of the store *)

Section StoreExtras.
Context {real : Type}.
Implicit Types (d : Database real) (r : Row real) (t : list (Row real)).

Lemma max_rowid_bound t r : In r t -> col_id r <= max_rowid t.
Proof.
  induction t as [|x t IH]; [easy|]. cbn [max_rowid fold_right].
  intros [->|Hr]; [lia|]. specialize (IH Hr). unfold max_rowid in IH. lia.
Qed.

Lemma step_cases d d' :
  step d d' ->
  d' = d
  \/ (exists row, products d' = products d ++ [row]
        /\ col_id row = autoinc d'
        /\ autoinc d' = Z.max (autoinc d) (max_rowid (products d)) + 1
        /\ ~ In (col_sku row) (skus d)
        /\ Text.upper (col_sku row) = col_sku row
        /\ col_active row = true)
  \/ (exists now key delta,
        products d'
        = map (fun r => if has_sku key r then adjust delta now r else r)
            (products d)
        /\ autoinc d' = autoinc d).
Proof.
  intros [cr up s n c p co i u de d0|now s delta d0].
  - destruct (List.in_dec String.string_dec (Text.upper s) (skus d0)) as [Hk|Hk].
    + left. now rewrite add_product_refused.
    + right. left.
      destruct (add_product_fresh cr up s n c p co i u de d0 Hk)
        as (row & q & -> & _ & Hs & Hid & _ & _ & _ & _ & _ & _ & _ & Ha & _).
      exists row. cbn [fst products autoinc]. rewrite Hs.
      repeat split; try easy. apply upper_idem.
  - right. right. now exists now, (Text.upper s), delta.
Qed.

Lemma same_but_inventory_refl r : same_but_inventory r r.
Proof. unfold same_but_inventory. now repeat split. Qed.

Lemma same_but_inventory_trans r1 r2 r3 :
  same_but_inventory r1 r2 -> same_but_inventory r2 r3 ->
  same_but_inventory r1 r3.
Proof.
  unfold same_but_inventory. intros H12 H23.
  destruct H12 as (?&?&?&?&?&?&?&?&?&?), H23 as (?&?&?&?&?&?&?&?&?&?).
  repeat split; congruence.
Qed.

Lemma Forall2_same_refl t : Forall2 same_but_inventory t t.
Proof. induction t; constructor; [apply same_but_inventory_refl|easy]. Qed.

Lemma Forall2_same_update key delta now t :
  Forall2 same_but_inventory t
    (map (fun r => if has_sku key r then adjust delta now r else r) t).
Proof.
  induction t as [|x t IH]; cbn [map]; constructor; [|easy].
  destruct (has_sku key x); [apply adjust_same|apply same_but_inventory_refl].
Qed.

(** Rows are permanent: whatever calls of [add_product] and
    [update_inventory] follow, the table keeps every row it had, in place and
    with every column but [inventory] and [updated_at] as it was; new rows
    come after them. *)
Theorem rows_are_permanent d d' :
  rtc step d d' ->
  exists kept added,
    products d' = kept ++ added
    /\ Forall2 same_but_inventory (products d) kept.
Proof.
  induction 1 as [d|d d1 d2 Hs _ (kept & added & E & Hk)].
  - exists (products d), []. split; [now rewrite List.app_nil_r|].
    apply Forall2_same_refl.
  - assert (H1 : exists kept1 added1,
               products d1 = kept1 ++ added1
               /\ Forall2 same_but_inventory (products d) kept1).
    { destruct (step_cases _ _ Hs)
        as [->|[(row & -> & _)|(now & key & delta & -> & _)]].
      - exists (products d), []. split; [now rewrite List.app_nil_r|].
        apply Forall2_same_refl.
      - exists (products d), [row]. split; [reflexivity|].
        apply Forall2_same_refl.
      - eexists _, []. split; [now rewrite List.app_nil_r|].
        apply Forall2_same_update. }
    destruct H1 as (kept1 & added1 & E1 & Hk1). rewrite E1 in Hk.
    apply Forall2_app_inv_l in Hk as (k1 & k2 & Hk1' & Hk2 & ->).
    exists k1, (k2 ++ added). split; [now rewrite E, <- List.app_assoc|].
    clear -Hk1 Hk1'. revert k1 Hk1'.
    induction Hk1 as [|x y l1 l2 Hxy _ IH]; intros k1 Hk1'.
    + inversion Hk1'. constructor.
    + inversion Hk1' as [|? z ? l3 Hyz Hl]; subst. constructor.
      * eapply same_but_inventory_trans; eassumption.
      * now apply IH.
Qed.

End StoreExtras.

Section StoreInvariants.
Context {real : Type}.
Implicit Types (d : Database real) (r : Row real) (t : list (Row real)).

Lemma max_rowid_nonneg t : 0 <= max_rowid t.
Proof. induction t as [|x t IH]; cbn [max_rowid fold_right]; [lia|].
  unfold max_rowid in IH. lia. Qed.

Lemma update_rows_ids key delta now t :
  map col_id (map (fun r => if has_sku key r then adjust delta now r else r) t)
  = map col_id t.
Proof.
  induction t as [|x t IH]; [reflexivity|].
  cbn [map]. rewrite IH. now destruct (has_sku key x).
Qed.

Lemma ids_ordered_step d d' : step d d' -> ids_ordered d -> ids_ordered d'.
Proof.
  intros Hs [Hsort Hall]. unfold ids_ordered.
  destruct (step_cases _ _ Hs)
    as [->|[(row & -> & Hid & Hnew & _)|(now & key & delta & -> & ->)]].
  - easy.
  - rewrite List.Forall_forall in Hall.
    pose proof (max_rowid_nonneg (products d)) as Hm. split.
    + rewrite List.map_app. cbn [map]. apply StronglySorted_app_2; [|easy|].
      * intros x y Hx Hy. apply list_elem_of_In, List.in_map_iff in Hx.
        destruct Hx as (r & <- & Hr).
        apply list_elem_of_singleton in Hy as ->.
        pose proof (max_rowid_bound _ _ Hr). lia.
      * repeat constructor.
    + apply List.Forall_app. split.
      * apply List.Forall_forall. intros r Hr. specialize (Hall r Hr). lia.
      * repeat constructor; lia.
  - split; [now rewrite update_rows_ids|].
    rewrite List.Forall_map. eapply List.Forall_impl; [|exact Hall].
    intros r Hr. cbn beta. now destruct (has_sku key r).
Qed.

(** In a catalog built by the methods alone, ids are positive, grow along
    the table (so no two products share one) and never exceed the
    AUTOINCREMENT counter. *)
Theorem reachable_ids d :
  reachable d ->
  ids_ordered d /\ NoDup (map col_id (products d)).
Proof.
  intros Hr. assert (Ho : ids_ordered d).
  { induction Hr as [|? ? ? ? ? ? ? ? ? ? d _ IH|? ? ? d _ IH].
    - split; constructor.
    - eapply ids_ordered_step; [apply step_add|exact IH].
    - eapply ids_ordered_step; [apply step_update|exact IH]. }
  split; [exact Ho|]. destruct Ho as [Hsort _].
  induction Hsort as [|x l _ IH Hx]; constructor; [|exact IH].
  intros Hin. rewrite List.Forall_forall in Hx.
  apply list_elem_of_In, Hx in Hin. lia.
Qed.

Lemma has_sku_adjust key delta now r :
  has_sku key (adjust delta now r) = has_sku key r.
Proof. reflexivity. Qed.


(** UPDATEs of two different skus do not interfere. *)
Lemma update_statement_commute now1 now2 s1 s2 delta1 delta2 d :
  Text.upper s1 <> Text.upper s2 ->
  fst (update_inventory now2 s2 delta2 (fst (update_inventory now1 s1 delta1 d)))
  = fst (update_inventory now1 s1 delta1 (fst (update_inventory now2 s2 delta2 d)))
  /\ snd (update_inventory now2 s2 delta2
            (fst (update_inventory now1 s1 delta1 d)))
     = snd (update_inventory now2 s2 delta2 d).
Proof.
  intros Hne. unfold update_inventory. cbn [fst snd products autoinc].
  rewrite !List.map_map. split.
  - f_equal. apply List.map_ext. intros r.
    destruct (has_sku (Text.upper s1) r) eqn:H1,
             (has_sku (Text.upper s2) r) eqn:H2;
      rewrite ?has_sku_adjust, ?H1, ?H2; try reflexivity.
    apply has_sku_true in H1, H2. congruence.
  - f_equal. induction (products d) as [|r t IH]; [reflexivity|].
    cbn [map List.find].
    destruct (has_sku (Text.upper s1) r) eqn:H1,
             (has_sku (Text.upper s2) r) eqn:H2;
      rewrite ?has_sku_adjust, ?H1, ?H2, ?has_sku_adjust, ?H2;
      try reflexivity; try exact IH.
    apply has_sku_true in H1, H2. congruence.
Qed.

End StoreInvariants.

(** * Further properties of the methods that write *)

Section MethodExtras.
Context `{Unicode}.
Implicit Types (d : Database float) (r : Row float).

Lemma update_inventory_returned now s delta d d' p :
  ProductCatalog.update_inventory now s delta d
  = ProductCatalog.Returned d' p ->
  Sqlite.fits_int64 delta = true
  /\ (forall r, In r (products d) -> col_sku r = str_upper s ->
                col_inventory r + delta <= Sqlite.INT64_MAX)
  /\ d' = fst (update_inventory now (str_upper s) delta d)
  /\ p = snd (update_inventory now (str_upper s) delta d).
Proof.
  unfold ProductCatalog.update_inventory.
  destruct (Sqlite.fits_int64 delta); cbn [negb]; [|discriminate].
  destruct (List.find _ (products d)) as [x|] eqn:E; [discriminate|].
  intros [= <- <-]. split; [reflexivity|]. split.
  - intros r Hr Hk. pose proof (List.find_none _ _ E r Hr) as Hf.
    cbn beta in Hf. apply has_sku_true in Hk. rewrite Hk in Hf.
    cbn [andb] in Hf. unfold ProductCatalog.overflows in Hf.
    apply Z.ltb_ge in Hf. exact Hf.
  - unfold update_inventory. now rewrite str_upper_no_lower.
Qed.


(** Once a sku is stored by [add_product], adding any spelling of it,
    with whatever other arguments, raises and leaves the table as it was;
    the error is that of the UNIQUE constraint when the inventory fits 64
    bits, an id is left and the price is a number. *)
Theorem add_product_again created updated s name0 category0 price0 cost0
    inventory0 unit0 description0 d d' p
    created' updated' s' name' category' price' cost' inventory' unit'
    description' :
  ProductCatalog.add_product created updated s name0 category0 price0 cost0
    inventory0 unit0 description0 d = (d', Ok p) ->
  str_upper s' = str_upper s ->
  let out := ProductCatalog.add_product created' updated' s' name' category'
               price' cost' inventory' unit' description' d' in
  fst out = d'
  /\ (exists e, snd out = Raise e)
  /\ (Sqlite.fits_int64 inventory' = true ->
      Sqlite.last_rowid d' < Sqlite.INT64_MAX ->
      PrimFloat.is_nan price' = false ->
      snd out = Raise DuplicateSkuError).
Proof.
  intros Ha Hs. cbv zeta.
  assert (Hk : In (str_upper s') (skus d')).
  { destruct (add_product_cases created updated s name0 category0 price0
                cost0 inventory0 unit0 description0 d)
      as [(_ & _ & _ & _ & E)|(_ & e & E)]; rewrite E in Ha;
      [|discriminate].
    injection Ha as <- _. unfold skus. cbn [products].
    rewrite List.map_app, List.in_app_iff, Hs. right. now left. }
  rewrite (add_product_stored _ _ _ _ _ _ _ _ _ _ _ Hk). cbn [fst snd].
  split; [reflexivity|]. split; [eauto|].
  intros -> Hl ->. cbn [negb].
  destruct (Z.leb_spec Sqlite.INT64_MAX (Sqlite.last_rowid d')); [lia|easy].
Qed.

(** The inventory floor: a call of [update_inventory] that returns leaves
    every row it matches, and the product it returns, with an inventory
    that is not negative, and keeps a table without negative inventories
    so; [add_product] stores the inventory it is given, so a call that
    stores a product keeps such a table so exactly when that inventory is
    not negative, and a call that raises changes nothing. *)
Theorem inventory_floor now s delta d :
  (forall d' p,
     ProductCatalog.update_inventory now s delta d
     = ProductCatalog.Returned d' p ->
     (forall r, In r (products d') -> col_sku r = str_upper s ->
                0 <= col_inventory r)
     /\ (forall q, p = Some q -> 0 <= inventory q)
     /\ (stocked d -> stocked d'))
  /\ (forall created updated s' name0 category0 price0 cost0 inventory0
        unit0 description0 d' p,
        stocked d ->
        ProductCatalog.add_product created updated s' name0 category0 price0
          cost0 inventory0 unit0 description0 d = (d', Ok p) ->
        (stocked d' <-> 0 <= inventory0))
  /\ (forall created updated s' name0 category0 price0 cost0 inventory0
        unit0 description0 d' e,
        ProductCatalog.add_product created updated s' name0 category0 price0
          cost0 inventory0 unit0 description0 d = (d', Raise e) ->
        d' = d).
Proof.
  split; [|split].
  - intros d' p Hu.
    apply update_inventory_returned in Hu as (_ & _ & -> & ->).
    unfold update_inventory. rewrite str_upper_no_lower.
    cbn [fst snd products].
    assert (Hrows : forall r,
               In r (map (fun r => if has_sku (str_upper s) r
                                   then adjust delta now r else r)
                       (products d)) ->
               col_sku r = str_upper s -> 0 <= col_inventory r).
    { intros r Hr Hk. apply List.in_map_iff in Hr as (x & <- & _).
      destruct (has_sku (str_upper s) x) eqn:E; [cbn; lia|].
      apply has_sku_false in E. contradiction. }
    split; [exact Hrows|]. split.
    + intros q Hq. destruct (List.find _ _) as [x|] eqn:E; [|discriminate].
      injection Hq as <-. apply List.find_some in E as [Hin Hx].
      apply has_sku_true in Hx. now apply Hrows.
    + unfold stocked. cbn [products]. intros Hs.
      rewrite List.Forall_map. eapply List.Forall_impl; [|exact Hs].
      intros r Hr. cbn beta. destruct (has_sku _ r); [cbn; lia|easy].
  - intros cr up s' n c pr co i u de d' p Hs Ha.
    destruct (add_product_cases cr up s' n c pr co i u de d)
      as [(_ & _ & _ & _ & E)|(_ & e & E)]; rewrite E in Ha; [|discriminate].
    injection Ha as <- _. unfold stocked in *. cbn [products].
    rewrite List.Forall_app. split.
    + intros [_ Hrow]. inversion Hrow; subst. assumption.
    + intros Hi0. split; [easy|]. now repeat constructor.
  - intros cr up s' n c pr co i u de d' e Ha.
    destruct (add_product_cases cr up s' n c pr co i u de d)
      as [(_ & _ & _ & _ & E)|(_ & e' & E)]; rewrite E in Ha;
      [discriminate|]. now injection Ha as <- _.
Qed.


(** Adjustments of two skus with different upper-case forms do not
    interfere: when each returns on the table, each returns the same
    product after the other, and either order gives the same table. *)
Theorem update_inventory_commute now1 now2 s1 s2 delta1 delta2 d d1 d2
    p1 p2 :
  str_upper s1 <> str_upper s2 ->
  ProductCatalog.update_inventory now1 s1 delta1 d
  = ProductCatalog.Returned d1 p1 ->
  ProductCatalog.update_inventory now2 s2 delta2 d
  = ProductCatalog.Returned d2 p2 ->
  exists d12,
    ProductCatalog.update_inventory now2 s2 delta2 d1
    = ProductCatalog.Returned d12 p2
    /\ ProductCatalog.update_inventory now1 s1 delta1 d2
       = ProductCatalog.Returned d12 p1.
Proof.
  intros Hne Hu1 Hu2.
  apply update_inventory_returned in Hu1 as (F1 & O1 & -> & ->).
  apply update_inventory_returned in Hu2 as (F2 & O2 & -> & ->).
  assert (Hne' : Text.upper (str_upper s1) <> Text.upper (str_upper s2))
    by now rewrite !str_upper_no_lower.
  assert (Hne'' : Text.upper (str_upper s2) <> Text.upper (str_upper s1))
    by congruence.
  assert (Hkeep : forall (now sa sb : string) delta delta' r,
             str_upper sa <> str_upper sb ->
             (forall x, In x (products d) -> col_sku x = str_upper sb ->
                        col_inventory x + delta' <= Sqlite.INT64_MAX) ->
             In r (products (fst (update_inventory now (str_upper sa) delta d))) ->
             col_sku r = str_upper sb ->
             col_inventory r + delta' <= Sqlite.INT64_MAX).
  { intros now sa sb delta delta' r Hab Ho Hin Hk.
    unfold update_inventory in Hin. rewrite str_upper_no_lower in Hin.
    cbn [fst products] in Hin.
    apply List.in_map_iff in Hin as (x & <- & Hx).
    destruct (has_sku (str_upper sa) x) eqn:E.
    - apply has_sku_true in E. cbn in Hk. congruence.
    - now apply Ho. }
  destruct (update_statement_commute now1 now2 (str_upper s1) (str_upper s2)
              delta1 delta2 d Hne') as [Et Ep2].
  destruct (update_statement_commute now2 now1 (str_upper s2) (str_upper s1)
              delta2 delta1 d Hne'') as [_ Ep1].
  eexists. split.
  - rewrite update_inventory_within; [|exact F2|].
    + rewrite Ep2. reflexivity.
    + intros r. now apply Hkeep.
  - rewrite update_inventory_within; [|exact F1|].
    + now rewrite Ep1, <- Et.
    + intros r. apply Hkeep; [congruence|exact O1].
Qed.

(** Every table that the methods build is one that their statements
    build, so what holds of the latter ([reachable]) holds of it. *)
Lemma built_reachable d : built d -> reachable d.
Proof.
  induction 1 as [|cr up s n c pr co i u de d d' p _ IH Ha
                  |now s delta d d' p _ IH Hu].
  - apply reach_empty.
  - destruct (add_product_cases cr up s n c pr co i u de d)
      as [(Hi & Hl & Hp & _ & _)|(_ & e & E)].
    + rewrite add_product_within in Ha by assumption.
      replace d' with (fst (add_product cr up (str_upper s) n c pr co i u de d))
        by now rewrite Ha.
      now apply reach_add.
    + rewrite E in Ha. discriminate.
  - apply update_inventory_returned in Hu as (_ & _ & -> & _).
    now apply reach_update.
Qed.

End MethodExtras.

(** * Further properties of listing and searching *)

Section QueryExtras.
Context {real : Type}.
Implicit Types (d : Database real) (r : Row real) (t : list (Row real)).

Lemma filter_sublist {A : Type} (f : A -> bool) (l : list A) :
  List.filter f l `sublist_of` l.
Proof.
  induction l as [|x l IH]; [constructor|]. cbn [List.filter].
  destruct (f x); [now apply sublist_skip|now apply sublist_cons].
Qed.

End QueryExtras.

Section MethodQueryExtras.
Implicit Types (d : Database float) (r : Row float).

(** Whatever the query of at most 49998 bytes without a zero byte,
    wildcards included, [search] misses nothing: every stored row that
    mentions the query is returned; what it returns are stored rows, none
    more often than stored, in name order. *)
Theorem search_any_query query d :
  Text.has_char Text.is_nul query = false ->
  Z.of_nat (String.length query) <= 49998 ->
  exists rows,
    ProductCatalog.search query d = Ok (map _row_to_product rows)
    /\ StronglySorted by_name rows
    /\ rows ⊆+ products d
    /\ forall r, In r (products d) -> mentions query r -> In r rows.
Proof.
  intros Hz Hn.
  exists (merge_sort by_name
            (List.filter (search_matches query) (products d))).
  split; [now apply search_within|].
  split; [apply StronglySorted_merge_sort; apply _|].
  split.
  - rewrite (merge_sort_Permutation by_name).
    apply sublist_submseteq, filter_sublist.
  - intros r Hr Hm. apply list_elem_of_In.
    rewrite (merge_sort_Permutation by_name).
    apply list_elem_of_In, List.filter_In. split; [exact Hr|].
    unfold search_matches. rewrite !orb_true_iff.
    destruct Hm as [Hm|[Hm|[Hm|Hm]]];
      apply (like_contains_mention _ _ Hz) in Hm; tauto.
Qed.

(** The case of the ASCII letters of the query does not matter to
    [search]: with its letters a-z put in upper case, or its letters A-Z in
    lower case, the query returns, or raises, what it does as it is. *)
Theorem search_ignores_query_case query d :
  ProductCatalog.search (Text.upper query) d = ProductCatalog.search query d
  /\ ProductCatalog.search (Text.fold_case query) d
     = ProductCatalog.search query d.
Proof.
  assert (Hf : forall f, f = Text.to_upper \/ f = Text.to_lower ->
                 ProductCatalog.search (Text.map_chars f query) d
                 = ProductCatalog.search query d).
  { intros f Hf. unfold ProductCatalog.search.
    rewrite !contains_pattern_length, map_chars_length.
    destruct (products d) as [|x t]; [reflexivity|].
    destruct (_ <? _); [reflexivity|]. do 3 f_equal.
    unfold sql_where. apply List.filter_ext. intros r.
    unfold search_matches. now rewrite !like_pattern_case. }
  split; apply Hf; auto.
Qed.

(** Raising the limit only appends: the listing under the limit [n] is the
    first [n] products of the listing under any limit of 64 bits that is
    larger or negative. *)
Theorem list_products_limit_prefix category0 active_only n m d :
  0 <= n -> m < 0 \/ n <= m ->
  Sqlite.fits_int64 n = true -> Sqlite.fits_int64 m = true ->
  exists small large,
    ProductCatalog.list_products category0 active_only n d = Ok small
    /\ ProductCatalog.list_products category0 active_only m d = Ok large
    /\ small = firstn (Z.to_nat n) large.
Proof.
  intros Hn Hm Fn Fm.
  exists (list_products category0 active_only n d),
    (list_products category0 active_only m d).
  split; [now apply list_products_within|].
  split; [now apply list_products_within|].
  unfold list_products. rewrite !list_rows_selected.
  unfold sql_limit.
  destruct (Z.ltb_spec n 0) as [|_]; [lia|].
  destruct (Z.ltb_spec m 0) as [_|Hm0]; rewrite List.firstn_map;
    [reflexivity|].
  rewrite List.firstn_firstn. do 2 f_equal. lia.
Qed.

End MethodQueryExtras.

Section ResultExtras.
Context {real : Type}.
Implicit Types (d : Database real) (r : Row real) (t : list (Row real)).

(** No product is returned twice: with the skus of the table distinct, so
    are those of a listing and of a search result. *)
Theorem results_without_duplicates category0 active_only limit query d :
  unique_skus d ->
  NoDup (map sku (list_products category0 active_only limit d))
  /\ NoDup (map sku (search query d)).
Proof.
  unfold unique_skus, skus. intros Hu.
  assert (Hf : forall f : Row real -> bool,
             NoDup (map col_sku (merge_sort by_category_name
                                   (List.filter f (products d))))
             /\ NoDup (map col_sku (merge_sort by_name
                                      (List.filter f (products d))))).
  { intros f. split.
    - rewrite (merge_sort_Permutation by_category_name).
      eapply sublist_NoDup; [exact Hu|apply (fmap_sublist col_sku), filter_sublist].
    - rewrite (merge_sort_Permutation by_name).
      eapply sublist_NoDup; [exact Hu|apply (fmap_sublist col_sku), filter_sublist]. }
  split.
  - unfold list_products. rewrite list_rows_selected, List.map_map.
    change (fun x => sku (_row_to_product x)) with (@col_sku real).
    unfold sql_limit. destruct (limit <? 0); [apply (proj1 (Hf _))|].
    eapply sublist_NoDup;
      [apply (proj1 (Hf (listed category0 active_only)))
      |apply (fmap_sublist col_sku), sublist_take].
  - unfold search, sql_where. rewrite List.map_map.
    change (fun x => sku (_row_to_product x)) with (@col_sku real).
    apply (proj2 (Hf _)).
Qed.

Lemma listed_when_active category0 r :
  col_active r = true ->
  listed category0 true r = listed category0 false r.
Proof. intros Ha. unfold listed. now rewrite Ha. Qed.

(** No method clears the flag [active], so on a catalog built by the
    methods alone [active_only] makes no difference to a listing. *)
Theorem reachable_lists_all category0 limit d :
  reachable d ->
  list_products category0 true limit d
  = list_products category0 false limit d.
Proof.
  intros Hr. apply reachable_active in Hr.
  rewrite List.Forall_forall in Hr.
  unfold list_products. rewrite !list_rows_selected. do 3 f_equal.
  apply List.filter_ext_in. intros r Hin. now apply listed_when_active, Hr.
Qed.

(** [inventory_color] always finds the status in its table, so the default
    RESET is never the answer: the colour is red for an inventory of at most
    0, yellow from 1 to 9, green from 10 on. *)
Theorem inventory_color_cases (p : Product real) :
  inventory_color p <> Ansi.RESET
  /\ (inventory_color p = Ansi.RED <-> inventory p <= 0)
  /\ (inventory_color p = Ansi.YELLOW <-> 0 < inventory p < 10)
  /\ (inventory_color p = Ansi.GREEN <-> 10 <= inventory p).
Proof.
  unfold inventory_color, inventory_status.
  destruct (Z.leb_spec (inventory p) 0), (Z.ltb_spec (inventory p) 10);
    vm_compute status_name; vm_compute (status_colors !! _); cbn [default];
    repeat split; intros; try discriminate; try lia; reflexivity.
Qed.

End ResultExtras.

(** * Further properties of the statistics *)

Section StatsExtras.
Context {real : Type} `{FloatOps real}.
Implicit Types (d : Database real) (r : Row real) (t : list (Row real)).

Lemma sql_count_nonneg (P : Row real -> bool) t : 0 <= sql_count P t.
Proof. unfold sql_count. lia. Qed.

Lemma sql_count_snoc (P : Row real -> bool) t r :
  sql_count P (t ++ [r]) = sql_count P t + (if P r then 1 else 0).
Proof.
  unfold sql_count, sql_where. rewrite List.filter_app, List.length_app.
  cbn [List.filter]. destruct (P r); cbn [length]; lia.
Qed.

Lemma sql_where_map (g : Row real -> Row real) (P : Row real -> bool) t :
  (forall r, P (g r) = P r) ->
  sql_where P (map g t) = map g (sql_where P t).
Proof.
  intros Hg. unfold sql_where. induction t as [|x t IH]; [reflexivity|].
  cbn [map List.filter]. rewrite Hg. destruct (P x); cbn [map]; now rewrite IH.
Qed.

Lemma sql_count_map (g : Row real -> Row real) (P : Row real -> bool) t :
  (forall r, P (g r) = P r) -> sql_count P (map g t) = sql_count P t.
Proof.
  intros Hg. unfold sql_count. now rewrite sql_where_map, List.length_map.
Qed.

Lemma categories_lookup d (c : string) :
  categories (get_catalog_stats d) !! c
  = let n := sql_count (fun r => col_active r
                                 && String.eqb (col_category r) c)
               (products d) in
    if decide (n = 0) then None else Some n.
Proof.
  unfold get_catalog_stats. cbn [categories]. rewrite group_count_lookup.
  cbv zeta. unfold sql_count, sql_where.
  now rewrite (filter_twice col_active).
Qed.

(** Adjusting an inventory moves a product between the stock counts at
    most: the total and the count of every category are as before. *)
Theorem update_inventory_keeps_totals now s delta d :
  let d' := fst (update_inventory now s delta d) in
  total (get_catalog_stats d') = total (get_catalog_stats d)
  /\ categories (get_catalog_stats d') = categories (get_catalog_stats d).
Proof.
  cbv zeta. split.
  - unfold get_catalog_stats, update_inventory. cbn [total fst products].
    apply sql_count_map. intros r. now destruct (has_sku _ r).
  - apply map_eq. intros c. rewrite !categories_lookup. cbv zeta.
    unfold update_inventory. cbn [fst products].
    rewrite sql_count_map; [reflexivity|].
    intros r. now destruct (has_sku _ r).
Qed.

Lemma count_rows_ext_in (P Q : Row real -> Prop)
    `{!forall r, Decision (P r)} `{!forall r, Decision (Q r)} t :
  (forall r, In r t -> P r <-> Q r) -> count_rows P t = count_rows Q t.
Proof.
  intros Hpq. induction t as [|x t IH]; [reflexivity|].
  rewrite !count_rows_cons, IH by (intros r Hr; apply Hpq; now right).
  pose proof (Hpq x (or_introl eq_refl)).
  destruct (decide (P x)), (decide (Q x)); tauto || reflexivity.
Qed.

(** The stock counts against [inventory_status]: the low-stock count is the
    number of active products whose status is LOW_STOCK; a product with a
    negative inventory has the status OUT_OF_STOCK but is counted in stock,
    so the other two counts are those of the statuses OUT_OF_STOCK and
    IN_STOCK when no active product has a negative inventory. *)
Theorem stock_counts_and_status d :
  let st := get_catalog_stats d in
  let overdrawn :=
    count_rows (fun r => col_active r = true /\ col_inventory r < 0)
      (products d) in
  low_stock st = count_rows (has_status LOW_STOCK) (products d)
  /\ in_stock st = count_rows (has_status IN_STOCK) (products d) + overdrawn
  /\ out_of_stock st
     = count_rows (has_status OUT_OF_STOCK) (products d) - overdrawn
  /\ (Forall (fun r => col_active r = true -> 0 <= col_inventory r)
        (products d) ->
      out_of_stock st = count_rows (has_status OUT_OF_STOCK) (products d)
      /\ in_stock st = count_rows (has_status IN_STOCK) (products d)).
Proof.
  cbv zeta.
  assert (Hs : forall r,
             (inventory_status (_row_to_product r) = OUT_OF_STOCK
              <-> col_inventory r <= 0)
             /\ (inventory_status (_row_to_product r) = LOW_STOCK
                 <-> 0 < col_inventory r < 10)
             /\ (inventory_status (_row_to_product r) = IN_STOCK
                 <-> 10 <= col_inventory r)).
  { intros r. unfold inventory_status. cbn [inventory _row_to_product].
    destruct (Z.leb_spec (col_inventory r) 0),
             (Z.ltb_spec (col_inventory r) 10);
      repeat split; intros; try discriminate; try lia; reflexivity. }
  assert (Hlow : low_stock (get_catalog_stats d)
                 = count_rows (has_status LOW_STOCK) (products d)).
  { unfold get_catalog_stats. cbn [low_stock]. apply count_filter.
    intros r. unfold has_status. rewrite !andb_true_iff, !Z.ltb_lt.
    destruct (Hs r) as (_ & -> & _). tauto. }
  assert (Hout : out_of_stock (get_catalog_stats d)
                 = count_rows (fun r => col_active r = true
                                 /\ col_inventory r = 0) (products d)).
  { unfold get_catalog_stats. cbn [out_of_stock]. apply count_filter.
    intros r. now rewrite andb_true_iff, Z.eqb_eq. }
  assert (Hin : in_stock (get_catalog_stats d)
                = count_rows (has_status IN_STOCK) (products d)
                  + count_rows (fun r => col_active r = true
                                  /\ col_inventory r < 0) (products d)).
  { rewrite in_stock_counts. clear Hlow Hout.
    induction (products d) as [|x t IH]; [reflexivity|].
    rewrite !count_rows_cons, IH. destruct (Hs x) as (_ & _ & Hx).
    repeat case_decide; unfold has_status in *; rewrite ?Hx in *;
      try lia; exfalso; intuition lia. }
  assert (Hout' : out_of_stock (get_catalog_stats d)
                  = count_rows (has_status OUT_OF_STOCK) (products d)
                    - count_rows (fun r => col_active r = true
                                    /\ col_inventory r < 0) (products d)).
  { rewrite Hout. clear Hlow Hout Hin.
    induction (products d) as [|x t IH]; [reflexivity|].
    rewrite !count_rows_cons, IH. destruct (Hs x) as (Hx & _ & _).
    repeat case_decide; unfold has_status in *; rewrite ?Hx in *;
      try lia; exfalso; intuition lia. }
  split; [exact Hlow|]. split; [exact Hin|]. split; [exact Hout'|].
  intros Hnn.
  assert (Hz : count_rows (fun r => col_active r = true
                             /\ col_inventory r < 0) (products d) = 0).
  { clear -Hnn. induction Hnn as [|x t Hx _ IH]; [reflexivity|].
    rewrite count_rows_cons, IH. case_decide; [|reflexivity]. intuition lia. }
  rewrite Hin, Hout', Hz. lia.
Qed.

Lemma sum_counts_insert (k : string) (n : Z) (m : gmap string Z) :
  m !! k = None -> sum_counts (<[k := n]> m) = n + sum_counts m.
Proof.
  intros Hk. unfold sum_counts.
  apply (map_fold_insert_L (fun _ (n acc : Z) => n + acc)); [|exact Hk].
  intros. lia.
Qed.

Lemma sum_counts_fold (f : string -> Z) (ks : list string)
    (m0 : gmap string Z) :
  NoDup ks -> (forall k, k ∈ ks -> m0 !! k = None) ->
  sum_counts (fold_left (fun m kv => <[kv.1 := kv.2]> m)
                (map (fun k => (k, f k)) ks) m0)
  = foldr Z.add 0 (map f ks) + sum_counts m0.
Proof.
  intros Hnd. revert m0. induction Hnd as [|k ks Hk Hnd IH]; intros m0 Hm.
  - cbn. lia.
  - cbn [map fold_left foldr fst snd]. rewrite IH.
    + rewrite sum_counts_insert; [lia|]. apply Hm. now left.
    + intros j Hj. rewrite lookup_insert_ne.
      * apply Hm. now right.
      * intros ->. contradiction.
Qed.

Lemma indicator_sum (c : string) (ks : list string) :
  NoDup ks -> c ∈ ks ->
  foldr Z.add 0 (map (fun k => if String.eqb c k then 1 else 0) ks) = 1.
Proof.
  induction 1 as [|k ks Hk Hnd IH]; intros Hc; [now apply elem_of_nil in Hc|].
  cbn [map foldr]. apply elem_of_cons in Hc as [->|Hc].
  - rewrite String.eqb_refl.
    assert (E : foldr Z.add 0
                  (map (fun j => if String.eqb k j then 1 else 0) ks) = 0).
    { clear -Hk. induction ks as [|j ks IH]; [reflexivity|].
      cbn [map foldr]. rewrite IH.
      - replace (String.eqb k j) with false; [reflexivity|].
        symmetry. apply String.eqb_neq. intros ->. apply Hk. now left.
      - intros Hin. apply Hk. now right. }
    lia.
  - replace (String.eqb c k) with false; [now rewrite IH|].
    symmetry. apply String.eqb_neq. intros ->. contradiction.
Qed.

Lemma group_sum (ks : list string) t :
  NoDup ks -> (forall r, In r t -> col_category r ∈ ks) ->
  foldr Z.add 0
    (map (fun k => sql_count (fun r => String.eqb (col_category r) k) t) ks)
  = Z.of_nat (length t).
Proof.
  intros Hnd. induction t as [|x t IH]; intros Hin.
  - clear. induction ks as [|k ks IH]; [reflexivity|].
    cbn [map foldr]. now rewrite IH.
  - assert (E : foldr Z.add 0
                  (map (fun k => sql_count
                                   (fun r => String.eqb (col_category r) k)
                                   (x :: t)) ks)
                = foldr Z.add 0
                    (map (fun k => if String.eqb (col_category x) k
                                   then 1 else 0) ks)
                  + foldr Z.add 0
                      (map (fun k => sql_count
                                       (fun r => String.eqb (col_category r) k)
                                       t) ks)).
    { clear. induction ks as [|k ks IHk]; [reflexivity|].
      cbn [map foldr]. rewrite IHk. unfold sql_count, sql_where.
      cbn [List.filter]. destruct (String.eqb (col_category x) k);
        cbn [length]; lia. }
    rewrite E, IH by (intros r Hr; apply Hin; now right).
    rewrite indicator_sum; [cbn [length]; lia|exact Hnd|].
    apply Hin. now left.
Qed.

(** The category counts add up to the total: every active product is
    counted under exactly one category. *)
Theorem category_counts_add_up d :
  sum_counts (categories (get_catalog_stats d))
  = total (get_catalog_stats d).
Proof.
  unfold get_catalog_stats. cbn [categories total].
  unfold dict_of, sql_group_count.
  set (t := sql_where col_active (products d)).
  set (ks := merge_sort String.le (remove_dups (map col_category t))).
  assert (Hnd : NoDup ks).
  { unfold ks. rewrite (merge_sort_Permutation String.le).
    apply NoDup_remove_dups. }
  rewrite (sum_counts_fold
             (fun k => sql_count (fun r => String.eqb (col_category r) k) t)
             ks ∅ Hnd) by (intros; apply lookup_empty).
  rewrite group_sum; [|exact Hnd|].
  - unfold sum_counts. rewrite map_fold_empty. unfold sql_count, t. lia.
  - intros r Hr. unfold ks.
    rewrite (merge_sort_Permutation String.le), elem_of_remove_dups.
    apply list_elem_of_In, List.in_map, Hr.
Qed.

End StatsExtras.

Section MethodStatsExtras.
Context `{Unicode}.
Implicit Types (d : Database float) (r : Row float).

(** A product that [add_product] stores counts once: the total grows by
    one, so does the count of its category, the other categories keep
    theirs, and the out-of-stock and low-stock counts grow by one exactly
    for an inventory of 0 and of 1 to 9.  A call that raises leaves the
    statistics as they were. *)
Theorem add_product_counts created updated s name0 category0 price0 cost0
    inventory0 unit0 description0 d :
  let out := ProductCatalog.add_product created updated s name0 category0
               price0 cost0 inventory0 unit0 description0 d in
  let st := get_catalog_stats d in
  let st' := get_catalog_stats (fst out) in
  ((exists p, snd out = Ok p) ->
   total st' = total st + 1
   /\ categories st' !! category0
      = Some (default 0 (categories st !! category0) + 1)
   /\ (forall c, c <> category0 -> categories st' !! c = categories st !! c)
   /\ out_of_stock st'
      = out_of_stock st + (if inventory0 =? 0 then 1 else 0)
   /\ low_stock st'
      = low_stock st
        + (if (0 <? inventory0) && (inventory0 <? 10) then 1 else 0))
  /\ ((exists e, snd out = Raise e) -> st' = st).
Proof.
  cbv zeta.
  destruct (add_product_cases created updated s name0 category0 price0 cost0
              inventory0 unit0 description0 d)
    as [(_ & _ & _ & _ & E)|(_ & e & E)]; rewrite E; cbn [fst snd].
  2: { split; [intros (p & Hp); discriminate|reflexivity]. }
  split; [|intros (e & He); discriminate]. intros _.
  split; [|split; [|split; [|split]]].
  - unfold get_catalog_stats. cbn [total products].
    now rewrite sql_count_snoc.
  - rewrite !categories_lookup. cbv zeta. cbn [products].
    rewrite sql_count_snoc. cbn [col_active col_category].
    rewrite String.eqb_refl. cbn [andb].
    pose proof (sql_count_nonneg
                  (fun r : Row float =>
                     col_active r && String.eqb (col_category r) category0)
                  (products d)) as Hn.
    rewrite decide_False by lia.
    destruct (decide (_ = 0)) as [->|]; reflexivity.
  - intros c Hne. rewrite !categories_lookup. cbv zeta. cbn [products].
    rewrite sql_count_snoc. cbn [col_active col_category].
    replace (String.eqb category0 c) with false.
    + cbn [andb]. now rewrite Z.add_0_r.
    + symmetry. apply String.eqb_neq. congruence.
  - unfold get_catalog_stats. cbn [out_of_stock products].
    now rewrite sql_count_snoc.
  - unfold get_catalog_stats. cbn [low_stock products].
    now rewrite sql_count_snoc.
Qed.

End MethodStatsExtras.

(** * Adding, then finding *)

Section RoundTrip.
Context {real : Type}.
Implicit Types (d : Database real) (r : Row real).

Lemma search_finds query d r :
  In r (products d) -> search_matches query r = true ->
  In (_row_to_product r) (search query d).
Proof.
  intros Hr Hm. unfold search, sql_where. apply List.in_map.
  apply list_elem_of_In. rewrite (merge_sort_Permutation by_name).
  apply list_elem_of_In, List.filter_In. now split.
Qed.

(** A row is matched by the query made of one of its four texts. *)
Lemma search_matches_field r (query : string) :
  In query [col_sku r; col_name r; col_category r; col_description r] ->
  search_matches query r = true.
Proof.
  unfold search_matches. rewrite !orb_true_iff.
  intros [<-|[<-|[<-|[<-|[]]]]]; rewrite like_self; tauto.
Qed.

Lemma list_finds category0 active_only limit d r :
  In r (products d) -> listed category0 active_only r = true ->
  limit < 0 \/ Z.of_nat (length (products d)) <= limit ->
  In (_row_to_product r) (list_products category0 active_only limit d).
Proof.
  intros Hr Hl Hlim. unfold list_products. apply List.in_map.
  rewrite list_rows_selected. unfold sql_limit.
  assert (Hin : In r (merge_sort by_category_name
                        (List.filter (listed category0 active_only)
                           (products d)))).
  { apply list_elem_of_In. rewrite (merge_sort_Permutation by_category_name).
    apply list_elem_of_In, List.filter_In. now split. }
  destruct (Z.ltb_spec limit 0) as [|Hn]; [exact Hin|].
  rewrite List.firstn_all2; [exact Hin|].
  rewrite (Permutation_length (merge_sort_Permutation _ _)).
  pose proof (List.filter_length_le (listed category0 active_only)
                (products d)).
  lia.
Qed.

End RoundTrip.

Section MethodRoundTrip.
Context `{Unicode}.
Implicit Types (d : Database float) (r : Row float).


(** [update_inventory], when it returns, answers [None] exactly when no
    row has the upper-cased sku; the product it returns otherwise is
    stored: it has that sku, the new time stamp and an inventory that is
    not negative, and a full listing and a search for its sku both show
    it. *)
Theorem update_inventory_then_found now s delta d d' p :
  ProductCatalog.update_inventory now s delta d
  = ProductCatalog.Returned d' p ->
  (p = None <-> ~ In (str_upper s) (skus d))
  /\ forall q,
       p = Some q ->
       sku q = str_upper s /\ updated_at q = now /\ 0 <= inventory q
       /\ (Z.of_nat (String.length (sku q)) <= 49998 ->
           exists found,
             ProductCatalog.search (sku q) d' = Ok found /\ In q found)
       /\ forall active_only limit,
            Sqlite.fits_int64 limit = true ->
            limit < 0 \/ Z.of_nat (length (products d')) <= limit ->
            (active_only = true -> active q = true) ->
            exists listing,
              ProductCatalog.list_products None active_only limit d'
              = Ok listing
              /\ In q listing.
Proof.
  intros Hu. apply update_inventory_returned in Hu as (_ & _ & -> & ->).
  unfold update_inventory. rewrite str_upper_no_lower. cbn [fst snd].
  split.
  - split.
    + intros Hn Hk. apply List.in_map_iff in Hk as (r & Hs & Hr).
      destruct (List.find _ _) as [x|] eqn:E; [discriminate|].
      apply has_sku_true in Hs.
      assert (Hf := List.find_none _ _ E (adjust delta now r)).
      rewrite has_sku_adjust, Hs in Hf. enough (true = false) by discriminate.
      apply Hf, List.in_map_iff. exists r. now rewrite Hs.
    + intros Hk.
      destruct (update_rows_absent (str_upper s) delta now (products d) Hk)
        as [E F].
      now rewrite E, F.
  - intros q Hq. destruct (List.find _ _) as [x|] eqn:E; [|discriminate].
    injection Hq as <-. apply List.find_some in E as [Hin Hx].
    assert (Hin' := Hin).
    apply List.in_map_iff in Hin' as (r & Hr & _).
    apply has_sku_true in Hx.
    assert (Hadj : x = adjust delta now r).
    { destruct (has_sku (str_upper s) r) eqn:Hk; [easy|]. subst x.
      apply has_sku_false in Hk. contradiction. }
    split; [exact Hx|]. split; [now rewrite Hadj|].
    split; [rewrite Hadj; cbn; lia|]. split.
    + intros Hn. eexists. split; [now apply search_within|].
      apply search_finds; [exact Hin|]. apply search_matches_field.
      now left.
    + intros active_only limit Hf Hlim Hact. eexists.
      split; [now apply list_products_within|].
      apply list_finds; try easy.
      unfold listed. cbn [_row_to_product active] in Hact.
      destruct active_only; [now rewrite Hact|reflexivity].
Qed.

End MethodRoundTrip.

(** [margin_pct] never divides by zero: a price that passes the test
    [price <= 0] is not zero, so the division raises nothing and the margin
    is the one computed with the total division. *)
Theorem margin_pct_divides_safely (p : Product float) :
  margin_pct_checked p = Some (margin_pct p).
Proof.
  unfold margin_pct_checked, margin_pct, truediv.
  cbn [fle of_int fsub fdiv fmul py_round Binary64.ops].
  destruct (PrimFloat.leb (price p) (Binary64.of_Z 0)) eqn:Hle; [reflexivity|].
  destruct (PrimFloat.eqb (price p) 0) eqn:Heq; [|reflexivity].
  exfalso. change (Binary64.of_Z 0) with 0%float in Hle.
  rewrite FloatAxioms.leb_spec in Hle. rewrite FloatAxioms.eqb_spec in Heq.
  unfold SFleb in Hle. unfold SFeqb in Heq.
  destruct (SFcompare (Prim2SF (price p)) (Prim2SF 0)) as [[]|]; discriminate.
Qed.

(** * The claims on the example catalogs *)

(** An instance for the examples: the catalogs below hold ASCII text
    only, and on ASCII text [str.upper()] is [Text.upper]
    ([str_upper_ascii]). *)
#[global] Instance ascii_text : Unicode := {|
  str_upper := Text.upper;
  str_upper_idempotent := upper_idem;
  str_upper_no_lower := upper_idem;
  str_upper_ascii := fun s _ => eq_refl
|}.

Lemma demo_db_unique : unique_skus demo_db.
Proof. apply NoDup_ListNoDup. vm_compute. repeat constructor; simpl; intuition discriminate. Qed.

Lemma demo_db_normalized : normalized demo_db.
Proof. vm_compute. repeat constructor. Qed.

Lemma widget_row_stored : In widget_row (products demo_db).
Proof. vm_compute. now left. Qed.


Example search_wid :
  map name (search "wid" demo_db) = ["Crate"; "Widget"]
  /\ map category (search "wid" demo_db) = ["Widgets"; "Parts"].
Proof. vm_compute. split; reflexivity. Qed.

Example update_inventory_overdraft :
  option_map inventory (snd (update_inventory stamp "wid-1" (-100) demo_db))
  = Some 0.
Proof. vm_compute. reflexivity. Qed.

Example inventory_status_examples :
  map (fun n => inventory_status (sample 1 0 n)) [0; 5; 10]
  = [OUT_OF_STOCK; LOW_STOCK; IN_STOCK].
Proof. reflexivity. Qed.

Lemma add_product_duplicate_witness :
  In (str_upper "Wid-1") (skus demo_db)
  /\ fst (ProductCatalog.add_product stamp stamp "Wid-1" "Widget" "Parts"
            9.99%float 4.5%float 5 "ea" EmptyString demo_db)
     = demo_db
  /\ snd (ProductCatalog.add_product stamp stamp "Wid-1" "Widget" "Parts"
            9.99%float 4.5%float 5 "ea" EmptyString demo_db)
     = Raise DuplicateSkuError
  /\ ProductCatalog.add_product stamp stamp "wID-1" "Widget" "Parts"
       9.99%float 4.5%float 5 "ea" EmptyString demo_db
     = ProductCatalog.add_product stamp stamp "Wid-1" "Widget" "Parts"
         9.99%float 4.5%float 5 "ea" EmptyString demo_db.
Proof.
  assert (Hk : In (str_upper "Wid-1") (skus demo_db)).
  { vm_compute. now left. }
  split; [exact Hk|].
  destruct (add_product_duplicate stamp stamp "Wid-1" "Widget" "Parts"
              9.99%float 4.5%float 5 "ea" EmptyString demo_db Hk)
    as (H1 & _ & H3 & H4).
  split; [exact H1|]. split.
  - apply H3; [reflexivity|vm_compute; reflexivity|reflexivity].
  - apply (H4 "wID-1"). reflexivity.
Defined.

(** C1 as stated fails: with the sku stored, an inventory beyond 64 bits
    is refused with OverflowError and a NaN price with the error of NOT
    NULL, neither of them the error of the UNIQUE constraint. *)
Lemma add_product_refused_otherwise :
  In (str_upper "wid-1") (skus demo_db)
  /\ ProductCatalog.add_product stamp stamp "wid-1" "Widget" "Parts"
       9.99%float 4.5%float (2 ^ 63) "ea" EmptyString demo_db
     = (demo_db, Raise Sqlite.int_too_large)
  /\ Sqlite.int_too_large <> DuplicateSkuError
  /\ ProductCatalog.add_product stamp stamp "wid-1" "Widget" "Parts"
       PrimFloat.nan 4.5%float 5 "ea" EmptyString demo_db
     = (demo_db, Raise Sqlite.price_is_null)
  /\ Sqlite.price_is_null <> DuplicateSkuError.
Proof.
  split; [vm_compute; now left|].
  split; [vm_compute; reflexivity|]. split; [discriminate|].
  split; [vm_compute; reflexivity|discriminate].
Qed.



Lemma update_inventory_unknown_witness :
  ~ In (str_upper "nope") (skus demo_db)
  /\ ProductCatalog.update_inventory "later" "nope" 3 demo_db
     = ProductCatalog.Returned demo_db None.
Proof.
  assert (Hk : ~ In (str_upper "nope") (skus demo_db)).
  { vm_compute. intuition discriminate. }
  split; [exact Hk|].
  apply (update_inventory_unknown "later" "nope" 3 demo_db Hk).
Defined.

(** C3 as stated fails: for a sku that is not stored the delta 2^63
    raises OverflowError. *)
Lemma update_inventory_unknown_overflow :
  ~ In (str_upper "nope") (skus demo_db)
  /\ ProductCatalog.update_inventory "later" "nope" (2 ^ 63) demo_db
     = ProductCatalog.Raised Sqlite.int_too_large.
Proof.
  split; [vm_compute; intuition discriminate|vm_compute; reflexivity].
Qed.

Lemma update_inventory_frame_witness :
  exists l1 l2 r',
    products demo_db = l1 ++ widget_row :: l2
    /\ products (fst (update_inventory "later" "wid-1" 7 demo_db))
       = l1 ++ r' :: l2
    /\ same_but_inventory widget_row r'
    /\ autoinc (fst (update_inventory "later" "wid-1" 7 demo_db))
       = autoinc demo_db.
Proof.
  apply (update_inventory_frame "later" "wid-1" 7 demo_db widget_row).
  - exact demo_db_unique.
  - exact widget_row_stored.
  - reflexivity.
Defined.

Lemma update_inventory_any_case_witness :
  ProductCatalog.update_inventory "later" "wId-1" 7 demo_db
  = ProductCatalog.update_inventory "later" (str_upper "wId-1") 7 demo_db
  /\ exists l1 l2,
       products demo_db = l1 ++ widget_row :: l2
       /\ ProductCatalog.update_inventory "later" "wId-1" 7 demo_db
          = ProductCatalog.Returned
              (mkDatabase (l1 ++ adjust 7 "later" widget_row :: l2)
                 (autoinc demo_db))
              (Some (_row_to_product (adjust 7 "later" widget_row))).
Proof.
  destruct (update_inventory_any_case "later" "wId-1" 7 demo_db) as [E Hr].
  split; [exact E|].
  assert (Hn : str_upper (col_sku widget_row) = col_sku widget_row)
    by reflexivity.
  assert (Hs : str_upper "wId-1" = str_upper (col_sku widget_row))
    by reflexivity.
  destruct (Hr widget_row demo_db_unique widget_row_stored Hn Hs) as [Hc _].
  apply Hc; [reflexivity|vm_compute; discriminate].
Defined.

Lemma inventory_status_cases_witness :
  0 <= inventory (sample 1 0 0)
  /\ (inventory_status (sample 1 0 0) = OUT_OF_STOCK
      <-> inventory (sample 1 0 0) = 0).
Proof.
  split; [simpl; lia|].
  apply (inventory_status_cases (sample 1 0 0)). simpl. lia.
Defined.

(** C9 as stated fails: a product entered with inventory -1 is reported
    OUT_OF_STOCK although its inventory is not 0. *)
Lemma inventory_status_overdrawn :
  exists p,
    In p (list_products None true 50 overdrawn_db)
    /\ inventory p = -1
    /\ ~ (inventory_status p = OUT_OF_STOCK <-> inventory p = 0).
Proof.
  exists (_row_to_product
            (mkRow 1 "NEG-1" "Backorder" "Parts" 1%float 0%float (-1) "ea"
               EmptyString true stamp stamp)).
  split; [vm_compute; now left|]. split; [reflexivity|].
  intros [Hs _]. specialize (Hs eq_refl). discriminate.
Qed.

Lemma list_products_spec_witness :
  Sqlite.fits_int64 2 = true
  /\ (forall listing,
        ProductCatalog.list_products (Some "Parts") true 2 demo_db
        = Ok listing ->
        Z.of_nat (length listing) <= 2)
  /\ List.filter (listed (Some "Nope") true) (products demo_db) = []
  /\ ProductCatalog.list_products (Some "Nope") true 2 demo_db = Ok [].
Proof.
  assert (Hl : Sqlite.fits_int64 2 = true) by reflexivity.
  split; [exact Hl|]. split.
  - destruct (list_products_spec (Some "Parts") true 2 demo_db) as [_ Hs].
    destruct (Hs Hl) as (sorted & _ & _ & _ & _ & Hcap & _).
    apply Hcap. lia.
  - split; [reflexivity|].
    destruct (list_products_spec (Some "Nope") true 2 demo_db) as [_ Hs].
    destruct (Hs Hl) as (sorted & _ & _ & _ & _ & _ & Hnone).
    apply Hnone. reflexivity.
Defined.

(** C7 as stated fails: asked for the empty category, [list_products]
    returns a product of category Tools; with the limit -1 it returns both
    products; and with the limit 2^63 it raises OverflowError though no
    product has the category asked for. *)
Lemma list_products_empty_category :
  (exists listing p,
     ProductCatalog.list_products (Some EmptyString) true 50 uncategorised_db
     = Ok listing
     /\ In p listing /\ category p = "Tools" /\ category p <> EmptyString)
  /\ (exists listing,
        ProductCatalog.list_products None true (-1) uncategorised_db
        = Ok listing
        /\ ~ (Z.of_nat (length listing) <= -1))
  /\ List.filter (listed (Some "Nope") true) (products uncategorised_db) = []
  /\ ProductCatalog.list_products (Some "Nope") true (2 ^ 63)
       uncategorised_db
     = Raise Sqlite.int_too_large.
Proof.
  split; [|split; [|split]].
  - eexists. exists (_row_to_product
              (mkRow 1 "A-1" "Anvil" "Tools" 1%float 0%float 3 "ea"
                 EmptyString true stamp stamp)).
    split; [vm_compute; reflexivity|].
    split; [right; now left|]. split; [reflexivity|discriminate].
  - eexists. split; [vm_compute; reflexivity|].
    vm_compute. intros Hle. now apply Hle.
  - reflexivity.
  - vm_compute. reflexivity.
Qed.



Lemma export_csv_spec_witness :
  existsb ProductCatalog.cost_is_none (export_products demo_db) = false
  /\ ProductCatalog.export_csv (Some "catalog.csv") demo_db ∅
     = (<["catalog.csv" := csv_content demo_db]> ∅, Ok (csv_content demo_db))
  /\ ProductCatalog.export_csv None demo_db ∅ = (∅, Ok (csv_content demo_db))
  /\ Z.of_nat (length (products demo_db)) <= 100000
  /\ Permutation (export_products demo_db)
       (map _row_to_product (products demo_db))
  /\ PrimFloat.is_finite (price (_row_to_product widget_row)) = true
  /\ Binary64.has_decimals 2 (format_f 2 (price (_row_to_product widget_row)))
  /\ existsb ProductCatalog.cost_is_none (export_products null_cost_db) = true
  /\ ProductCatalog.export_csv (Some "catalog.csv") null_cost_db ∅
     = (∅, Raise format_of_none).
Proof.
  destruct (export_csv_spec (Some "catalog.csv") demo_db ∅)
    as (_ & Hfile & _ & _ & _ & Hall & Hrec).
  destruct (export_csv_spec None demo_db ∅) as (_ & Hnone & _).
  destruct (export_csv_spec (Some "catalog.csv") null_cost_db ∅)
    as (Hraise & _).
  assert (Hc : existsb ProductCatalog.cost_is_none (export_products demo_db)
               = false) by (vm_compute; reflexivity).
  assert (Hl : Z.of_nat (length (products demo_db)) <= 100000).
  { vm_compute. discriminate. }
  assert (Hz : existsb ProductCatalog.cost_is_none
                 (export_products null_cost_db) = true)
    by (vm_compute; reflexivity).
  split; [exact Hc|]. split; [apply Hfile; exact Hc|].
  split; [apply Hnone; exact Hc|].
  split; [exact Hl|]. split; [apply Hall; exact Hl|].
  split; [reflexivity|].
  split; [apply (Hrec (_row_to_product widget_row)); reflexivity|].
  split; [exact Hz|apply Hraise; exact Hz].
Defined.

Lemma big_db_length : length (products big_db) = S export_limit_nat.
Proof.
  unfold big_db. cbn [products]. now rewrite List.length_map, List.length_seq.
Qed.

Lemma big_db_unique : unique_skus big_db.
Proof.
  unfold unique_skus, skus, big_db. cbn [products]. rewrite List.map_map.
  apply (NoDup_fmap_2 (fun n : nat => "P" +:+ pretty n)). apply NoDup_seq.
Qed.

(** C4 as stated fails: of 100001 products the export holds 100000; and a
    product entered with an infinite price is exported with the price
    [inf], which has no decimals. *)
Lemma export_csv_capped :
  (unique_skus big_db
   /\ Z.of_nat (length (products big_db)) = 100001
   /\ Z.of_nat (length (export_products big_db)) = 100000
   /\ ~ Permutation (export_products big_db)
          (map _row_to_product (products big_db)))
  /\ (exists p,
        export_products priceless_db = [p]
        /\ csv_record p !! 3%nat = Some "inf"
        /\ ~ Binary64.has_decimals 2 "inf").
Proof.
  split.
  - assert (H1 : Z.of_nat (length (products big_db)) = 100001).
    { rewrite big_db_length. unfold export_limit_nat. lia. }
    assert (H2 : Z.of_nat (length (export_products big_db)) = 100000).
    { rewrite export_products_length, big_db_length.
      unfold export_limit, export_limit_nat. lia. }
    split; [apply big_db_unique|]. split; [exact H1|]. split; [exact H2|].
    intros P. apply Permutation_length in P.
    rewrite List.length_map in P. lia.
  - eexists. split; [vm_compute; reflexivity|].
    split; [vm_compute; reflexivity|].
    intros Hd. apply has_decimals_point in Hd. discriminate.
Qed.

Lemma get_catalog_stats_spec_witness :
  inventory_value (get_catalog_stats rounding_db) = Float 150.07%float
  /\ fold_left PrimFloat.add (value_terms rounding_db) 0%float
     = 150.075%float
  /\ total (get_catalog_stats rounding_db) = 4
  /\ categories (get_catalog_stats rounding_db) !! "Parts" = Some 2
  /\ inventory_value (get_catalog_stats (@empty_db float)) = Int 0.
Proof.
  destruct (get_catalog_stats_spec rounding_db)
    as (Ht & _ & _ & _ & Hv & _ & _ & Hc & _).
  destruct (get_catalog_stats_spec (@empty_db float))
    as (_ & _ & _ & _ & _ & _ & _ & _ & He).
  split; [rewrite Hv; vm_compute; reflexivity|].
  split; [vm_compute; reflexivity|].
  split; [rewrite Ht; vm_compute; reflexivity|].
  split; [rewrite Hc; vm_compute; reflexivity|].
  apply He. reflexivity.
Defined.

(** C6 as stated fails: with a product of infinite price and no inventory
    beside a product worth 5, the sum of price times inventory over the
    active products is not a number, and the statistics report 5. *)
Lemma get_catalog_stats_skips_nan :
  map (fun r => (col_active r, col_price r, col_inventory r))
    (products idle_comet_db)
  = [(true, PrimFloat.infinity, 0); (true, 2.5%float, 2)]
  /\ inventory_value (get_catalog_stats idle_comet_db) = Float 5%float
  /\ PrimFloat.is_nan (spec_inventory_value idle_comet_db) = true.
Proof. vm_compute. repeat split. Qed.

Example get_catalog_stats_demo :
  let s := get_catalog_stats demo_db in
  (total s, out_of_stock s, low_stock s, in_stock s) = (3, 1, 1, 1)
  /\ inventory_value s = Float 149.95%float
  /\ map_to_list (categories s)
     ≡ₚ [("Parts", 1); ("Tools", 1); ("Widgets", 1)].
Proof.
  vm_compute. repeat split.
  apply NoDup_Permutation.
  - apply NoDup_ListNoDup. repeat constructor; simpl; intuition discriminate.
  - apply NoDup_ListNoDup. repeat constructor; simpl; intuition discriminate.
  - intros x. rewrite !elem_of_cons, !elem_of_nil. tauto.
Qed.

Example export_csv_demo :
  csv_content demo_db
  = Csv.writerows
      [csv_header;
       ["WID-1"; "Widget"; "Parts"; "9.99"; "4.50"; "55.0"; "5"; "ea";
        "LOW_STOCK"; "True"];
       ["GAD-7"; "Gadget"; "Tools"; "19.50"; "12.00"; "38.5"; "0"; "ea";
        "OUT_OF_STOCK"; "True"];
       ["BOX-2"; "Crate"; "Widgets"; "4.00"; "1.00"; "75.0"; "25"; "ea";
        "IN_STOCK"; "True"]].
Proof. vm_compute. reflexivity. Qed.

(** * The further properties on the example catalogs *)

Lemma demo_db_reachable : reachable demo_db.
Proof. unfold demo_db, added. repeat apply reach_add. apply reach_empty. Qed.


Lemma demo_db_room : Sqlite.last_rowid demo_db < Sqlite.INT64_MAX.
Proof. vm_compute. reflexivity. Qed.

Lemma restocked_db_steps : rtc step demo_base restocked_db.
Proof.
  eapply rtc_l; [apply (step_add stamp stamp "gad-7" "Gadget" "Tools"
                          19.5%float 12%float 0 "ea" EmptyString)|].
  eapply rtc_l; [apply (step_update "later" "wid-1" 7)|]. apply rtc_refl.
Qed.

Lemma gadget_added :
  ProductCatalog.add_product stamp stamp "gad-7" "Gadget" "Tools" 19.5%float
    12%float 0 "ea" EmptyString demo_base
  = (demo_db, Ok (_row_to_product gadget_row)).
Proof. vm_compute. reflexivity. Qed.

Lemma widget_sold_out :
  ProductCatalog.update_inventory "later" "wid-1" (-100) demo_db
  = ProductCatalog.Returned
      (fst (update_inventory "later" "wid-1" (-100) demo_db))
      (Some (_row_to_product (adjust (-100) "later" widget_row))).
Proof. vm_compute. reflexivity. Qed.



Lemma add_product_again_witness :
  ProductCatalog.add_product stamp stamp "gad-7" "Gadget" "Tools" 19.5%float
    12%float 0 "ea" EmptyString demo_base
  = (demo_db, Ok (_row_to_product gadget_row))
  /\ str_upper "Gad-7" = str_upper "gad-7"
  /\ fst (ProductCatalog.add_product "later" "later" "Gad-7" "Gizmo" "Toys"
            1%float 0%float 3 "box" "another" demo_db)
     = demo_db
  /\ snd (ProductCatalog.add_product "later" "later" "Gad-7" "Gizmo" "Toys"
            1%float 0%float 3 "box" "another" demo_db)
     = Raise DuplicateSkuError.
Proof.
  assert (Hs : str_upper "Gad-7" = str_upper "gad-7") by reflexivity.
  destruct (add_product_again stamp stamp "gad-7" "Gadget" "Tools"
              19.5%float 12%float 0 "ea" EmptyString demo_base demo_db
              (_row_to_product gadget_row)
              "later" "later" "Gad-7" "Gizmo" "Toys" 1%float 0%float 3 "box"
              "another" gadget_added Hs) as (H1 & _ & H3).
  split; [exact gadget_added|]. split; [exact Hs|]. split; [exact H1|].
  apply H3; [reflexivity|exact demo_db_room|reflexivity].
Defined.

Lemma reachable_ids_witness :
  reachable demo_db
  /\ ids_ordered demo_db /\ NoDup (map col_id (products demo_db)).
Proof.
  split; [exact demo_db_reachable|].
  apply (reachable_ids demo_db). exact demo_db_reachable.
Defined.

Lemma rows_are_permanent_witness :
  rtc step demo_base restocked_db
  /\ length (products demo_base) = 2%nat
  /\ exists kept added,
       products restocked_db = kept ++ added
       /\ Forall2 same_but_inventory (products demo_base) kept.
Proof.
  split; [exact restocked_db_steps|]. split; [reflexivity|].
  apply (rows_are_permanent demo_base restocked_db).
  exact restocked_db_steps.
Defined.

Lemma demo_db_stocked : stocked demo_db.
Proof. vm_compute. repeat constructor; discriminate. Qed.

Lemma inventory_floor_witness :
  stocked demo_db
  /\ ProductCatalog.update_inventory "later" "wid-1" (-100) demo_db
     = ProductCatalog.Returned
         (fst (update_inventory "later" "wid-1" (-100) demo_db))
         (Some (_row_to_product (adjust (-100) "later" widget_row)))
  /\ stocked (fst (update_inventory "later" "wid-1" (-100) demo_db))
  /\ 0 <= inventory (_row_to_product (adjust (-100) "later" widget_row))
  /\ ProductCatalog.add_product stamp stamp "nut-3" "Nut" "Parts" 0.5%float
       0.1%float (-2) "ea" EmptyString demo_db
     = (added "nut-3" "Nut" "Parts" 0.5 0.1 (-2) EmptyString demo_db,
        Ok (mkProduct "NUT-3" "Nut" "Parts" 0.5%float 0.1%float (-2) "ea"
              EmptyString true (Some 4) stamp stamp))
  /\ (stocked (added "nut-3" "Nut" "Parts" 0.5 0.1 (-2) EmptyString demo_db)
      <-> 0 <= -2).
Proof.
  assert (Ha : ProductCatalog.add_product stamp stamp "nut-3" "Nut" "Parts"
                 0.5%float 0.1%float (-2) "ea" EmptyString demo_db
               = (added "nut-3" "Nut" "Parts" 0.5 0.1 (-2) EmptyString
                    demo_db,
                  Ok (mkProduct "NUT-3" "Nut" "Parts" 0.5%float 0.1%float
                        (-2) "ea" EmptyString true (Some 4) stamp stamp))).
  { vm_compute. reflexivity. }
  destruct (inventory_floor "later" "wid-1" (-100) demo_db)
    as (Hupdate & Hadd & _).
  destruct (Hupdate _ _ widget_sold_out) as (_ & Hq & Hs).
  split; [exact demo_db_stocked|]. split; [exact widget_sold_out|].
  split; [apply Hs; exact demo_db_stocked|].
  split; [now apply Hq|]. split; [exact Ha|].
  exact (Hadd _ _ _ _ _ _ _ _ _ _ _ _ demo_db_stocked Ha).
Defined.


Lemma update_inventory_commute_witness :
  str_upper "wid-1" <> str_upper "box-2"
  /\ exists d1 d2 p1 p2 d12,
       ProductCatalog.update_inventory "soon" "wid-1" (-3) demo_db
       = ProductCatalog.Returned d1 p1
       /\ ProductCatalog.update_inventory "later" "box-2" 5 demo_db
          = ProductCatalog.Returned d2 p2
       /\ ProductCatalog.update_inventory "later" "box-2" 5 d1
          = ProductCatalog.Returned d12 p2
       /\ ProductCatalog.update_inventory "soon" "wid-1" (-3) d2
          = ProductCatalog.Returned d12 p1.
Proof.
  assert (Hne : str_upper "wid-1" <> str_upper "box-2").
  { vm_compute. discriminate. }
  split; [exact Hne|].
  assert (H1 : ProductCatalog.update_inventory "soon" "wid-1" (-3) demo_db
               = ProductCatalog.Returned
                   (fst (update_inventory "soon" "wid-1" (-3) demo_db))
                   (snd (update_inventory "soon" "wid-1" (-3) demo_db))).
  { vm_compute. reflexivity. }
  assert (H2 : ProductCatalog.update_inventory "later" "box-2" 5 demo_db
               = ProductCatalog.Returned
                   (fst (update_inventory "later" "box-2" 5 demo_db))
                   (snd (update_inventory "later" "box-2" 5 demo_db))).
  { vm_compute. reflexivity. }
  destruct (update_inventory_commute "soon" "later" "wid-1" "box-2" (-3) 5
              demo_db _ _ _ _ Hne H1 H2) as (d12 & E1 & E2).
  eexists _, _, _, _, d12. repeat split; eassumption.
Defined.

Lemma add_product_counts_witness :
  (exists p,
     snd (ProductCatalog.add_product stamp stamp "nut-3" "Nut" "Parts"
            0.5%float 0.1%float 40 "ea" EmptyString demo_db) = Ok p)
  /\ total (get_catalog_stats
              (fst (ProductCatalog.add_product stamp stamp "nut-3" "Nut"
                      "Parts" 0.5%float 0.1%float 40 "ea" EmptyString
                      demo_db)))
     = total (get_catalog_stats demo_db) + 1.
Proof.
  assert (Hp : exists p,
             snd (ProductCatalog.add_product stamp stamp "nut-3" "Nut"
                    "Parts" 0.5%float 0.1%float 40 "ea" EmptyString demo_db)
             = Ok p).
  { eexists. vm_compute. reflexivity. }
  split; [exact Hp|].
  destruct (add_product_counts stamp stamp "nut-3" "Nut" "Parts" 0.5%float
              0.1%float 40 "ea" EmptyString demo_db) as [Hok _].
  apply Hok. exact Hp.
Defined.

Lemma stock_counts_and_status_witness :
  Forall (fun r : Row float => col_active r = true -> 0 <= col_inventory r)
    (products demo_db)
  /\ out_of_stock (get_catalog_stats demo_db)
     = count_rows (has_status OUT_OF_STOCK) (products demo_db)
  /\ in_stock (get_catalog_stats demo_db)
     = count_rows (has_status IN_STOCK) (products demo_db).
Proof.
  assert (Hnn : Forall (fun r : Row float =>
                          col_active r = true -> 0 <= col_inventory r)
                  (products demo_db)).
  { vm_compute. repeat constructor; discriminate. }
  split; [exact Hnn|].
  apply (stock_counts_and_status demo_db). exact Hnn.
Defined.

Lemma widget_mentions_wid : mentions "wid" widget_row.
Proof. right. left. apply ci_substring_occurs. reflexivity. Qed.

Lemma search_any_query_witness :
  Text.has_char Text.is_nul "wid" = false
  /\ Z.of_nat (String.length "wid") <= 49998
  /\ In widget_row (products demo_db) /\ mentions "wid" widget_row
  /\ exists rows,
       ProductCatalog.search "wid" demo_db = Ok (map _row_to_product rows)
       /\ In widget_row rows.
Proof.
  assert (Hn : Z.of_nat (String.length "wid") <= 49998).
  { vm_compute. discriminate. }
  split; [reflexivity|]. split; [exact Hn|].
  split; [exact widget_row_stored|]. split; [exact widget_mentions_wid|].
  destruct (search_any_query "wid" demo_db eq_refl Hn)
    as (rows & E & _ & _ & Hall).
  exists rows. split; [exact E|].
  apply Hall; [exact widget_row_stored|exact widget_mentions_wid].
Defined.

Lemma list_products_limit_prefix_witness :
  0 <= 2 /\ (-1 < 0 \/ 2 <= -1)
  /\ Sqlite.fits_int64 2 = true /\ Sqlite.fits_int64 (-1) = true
  /\ exists small large,
       ProductCatalog.list_products None true 2 demo_db = Ok small
       /\ ProductCatalog.list_products None true (-1) demo_db = Ok large
       /\ small = firstn (Z.to_nat 2) large.
Proof.
  split; [lia|]. split; [left; lia|]. split; [reflexivity|].
  split; [reflexivity|].
  apply (list_products_limit_prefix None true 2 (-1) demo_db);
    [lia|left; lia|reflexivity|reflexivity].
Defined.

Lemma results_without_duplicates_witness :
  unique_skus demo_db
  /\ NoDup (map sku (list_products None true 50 demo_db))
  /\ NoDup (map sku (search "e" demo_db)).
Proof.
  split; [exact demo_db_unique|].
  apply (results_without_duplicates None true 50 "e" demo_db).
  exact demo_db_unique.
Defined.

Lemma reachable_lists_all_witness :
  reachable demo_db
  /\ list_products None true 50 demo_db = list_products None false 50 demo_db.
Proof.
  split; [exact demo_db_reachable|].
  apply (reachable_lists_all None 50 demo_db). exact demo_db_reachable.
Defined.

Lemma update_inventory_then_found_witness :
  ProductCatalog.update_inventory "later" "wid-1" (-100) demo_db
  = ProductCatalog.Returned
      (fst (update_inventory "later" "wid-1" (-100) demo_db))
      (Some (_row_to_product (adjust (-100) "later" widget_row)))
  /\ sku (_row_to_product (adjust (-100) "later" widget_row))
     = str_upper "wid-1"
  /\ (exists found,
        ProductCatalog.search "WID-1"
          (fst (update_inventory "later" "wid-1" (-100) demo_db))
        = Ok found
        /\ In (_row_to_product (adjust (-100) "later" widget_row)) found).
Proof.
  destruct (update_inventory_then_found "later" "wid-1" (-100) demo_db _ _
              widget_sold_out) as [_ Hq].
  destruct (Hq _ eq_refl) as (Hs & _ & _ & Hfound & _).
  split; [exact widget_sold_out|]. split; [exact Hs|].
  apply Hfound. vm_compute. discriminate.
Defined.

Lemma reachable_invariants_witness :
  reachable demo_db /\ unique_skus demo_db /\ normalized demo_db.
Proof.
  split; [exact demo_db_reachable|].
  apply (reachable_invariants demo_db). exact demo_db_reachable.
Defined.
